(** * Customer Language Miner: analysis orchestration and report assembly

    A shallow embedding of the analysis pipeline of the repository
    (src/main.py, src/customer_language_miner/analysis/claude_analyzer.py,
    src/customer_language_miner/output_generator/message_map.py) and the
    properties its specification states about it.

    Python values are embedded as a JSON-like universe, exceptions as an
    error monad, the console and the LLM client as an explicit world that
    is threaded through the passes. *)

From Stdlib Require Import String Ascii List ZArith Lia Bool.
From Stdlib Require Import SpecFloat DecimalString.
Import ListNotations.

Local Open Scope list_scope.
Local Open Scope string_scope.

(** [++] joins strings, [+++] joins lists. *)
Local Infix "+++" := app (right associativity, at level 60).
Local Set Warnings "-register-all".

(** ** Python values *)

Module Py.

(** The values the pipeline handles: what [json.loads] produces and what
    the connectors deliver.  Strings are byte strings holding the UTF-8
    encoding of the text; floats are IEEE binary64 ([prec = 53],
    [emax = 1024]); a dict is an association list in insertion order, its
    keys are strings. *)
Inductive value : Type :=
| VNone
| VBool (b : bool)
| VInt (z : Z)
| VFloat (f : spec_float)
| VStr (s : string)
| VList (l : list value)
| VDict (d : list (string * value)).

Definition dict := list (string * value).

(** Exceptions.  [KeyError] carries the missing key; the exceptions of
    code outside the repository (HTTP client, decoder) carry their class
    name and message.  [Unmodelled] is not a Python exception: it marks a
    run that leaves the universe above (a dict that would get a key that
    is not a string), about which nothing is stated. *)
Inductive exn : Type :=
| KeyError (key : value)
| IndexError
| TypeError
| AttributeError
| JSONDecodeError
| RecursionError
| LibraryError (cls : string) (msg : string)
| Unmodelled.

Inductive result (A : Type) : Type :=
| Ok (a : A)
| Raise (e : exn).

Arguments Ok {A} a.
Arguments Raise {A} e.

Definition bind {A B} (r : result A) (k : A -> result B) : result B :=
  match r with
  | Ok a => k a
  | Raise e => Raise e
  end.

Notation "x <- c ;; k" := (bind c (fun x => k))
  (at level 61, c at next level, right associativity).
Notation "' pat <- c ;; k" := (bind c (fun x => match x with pat => k end))
  (at level 61, pat pattern, c at next level, right associativity).

(** A [for] loop over a list whose body may raise: the accumulator is the
    state the body updates. *)
Fixpoint for_each {A S} (xs : list A) (body : S -> A -> result S) (s : S)
  : result S :=
  match xs with
  | [] => Ok s
  | x :: xs' => s' <- body s x ;; for_each xs' body s'
  end.

(** *** Truth value ([bool(v)], as used by [if v] and [a or b]) *)

Definition float_is_zero (f : spec_float) : bool :=
  match f with
  | S754_zero _ => true
  | _ => false
  end.

Definition truthy (v : value) : bool :=
  match v with
  | VNone => false
  | VBool b => b
  | VInt z => negb (z =? 0)%Z
  | VFloat f => negb (float_is_zero f)
  | VStr s => negb (s =? "")
  | VList l => match l with [] => false | _ => true end
  | VDict d => match d with [] => false | _ => true end
  end.

(** [a or b] *)
Definition py_or (a b : value) : value := if truthy a then a else b.

(** *** Dictionaries *)

Fixpoint lookup (k : string) (d : dict) : option value :=
  match d with
  | [] => None
  | (k', v) :: d' => if k =? k' then Some v else lookup k d'
  end.

(** [k in d] *)
Definition has_key (k : string) (d : dict) : bool :=
  match lookup k d with Some _ => true | None => false end.

(** [d.get(k, default)] *)
Definition dict_get (d : dict) (k : string) (default : value) : value :=
  match lookup k d with Some v => v | None => default end.

(** [d.get(k)] *)
Definition dict_get_none (d : dict) (k : string) : value :=
  dict_get d k VNone.

(** [d[k] = v]: an existing key keeps its position. *)
Fixpoint dict_set (d : dict) (k : string) (v : value) : dict :=
  match d with
  | [] => [(k, v)]
  | (k', v') :: d' =>
      if k =? k' then (k, v) :: d' else (k', v') :: dict_set d' k v
  end.

(** [v.get(k, default)] on an arbitrary value: only a dict has [get]. *)
Definition get (v : value) (k : string) (default : value) : result value :=
  match v with
  | VDict d => Ok (dict_get d k default)
  | _ => Raise AttributeError
  end.

(** [v.items()] *)
Definition items (v : value) : result (list (string * value)) :=
  match v with
  | VDict d => Ok d
  | _ => Raise AttributeError
  end.

(** *** Strings as sequences of code points *)

(** A byte [10xxxxxx] continues a UTF-8 sequence. *)
Definition is_continuation (c : ascii) : bool :=
  let n := N_of_ascii c in ((128 <=? n) && (n <? 192))%N.

(** The code points of a string, each as the string of its bytes. *)
Fixpoint code_points_aux (cur : string) (s : string) : list string :=
  match s with
  | EmptyString => [cur]
  | String c s' =>
      if is_continuation c
      then code_points_aux (cur ++ String c EmptyString) s'
      else cur :: code_points_aux (String c EmptyString) s'
  end.

Definition code_points (s : string) : list string :=
  match s with
  | EmptyString => []
  | String c s' => code_points_aux (String c EmptyString) s'
  end.

(** *** Sequences *)

(** [len(v)] *)
Definition len (v : value) : result Z :=
  match v with
  | VList l => Ok (Z.of_nat (length l))
  | VDict d => Ok (Z.of_nat (length d))
  | VStr s => Ok (Z.of_nat (length (code_points s)))
  | _ => Raise TypeError
  end.

(** [for x in v]: the elements of a list, the characters of a string, the
    keys of a dict. *)
Definition iter (v : value) : result (list value) :=
  match v with
  | VList l => Ok l
  | VStr s => Ok (map VStr (code_points s))
  | VDict d => Ok (map (fun kv => VStr (fst kv)) d)
  | _ => Raise TypeError
  end.

(** [l[i]] for a list and an integer: a negative index counts from the
    end, an index out of range raises [IndexError]. *)
Definition list_index {A} (l : list A) (i : Z) : result A :=
  let n := Z.of_nat (length l) in
  let j := if (i <? 0)%Z then (i + n)%Z else i in
  if ((j <? 0) || (n <=? j))%Z then Raise IndexError
  else match nth_error l (Z.to_nat j) with
       | Some x => Ok x
       | None => Raise IndexError
       end.

(** An integer index: [bool] is a subclass of [int]. *)
Definition as_index (i : value) : option Z :=
  match i with
  | VInt z => Some z
  | VBool b => Some (if b then 1 else 0)%Z
  | _ => None
  end.

(** [v[i]] *)
Definition getitem (v i : value) : result value :=
  match v with
  | VList l =>
      match as_index i with
      | Some z => list_index l z
      | None => Raise TypeError
      end
  | VStr s =>
      match as_index i with
      | Some z => x <- list_index (code_points s) z ;; Ok (VStr x)
      | None => Raise TypeError
      end
  | VDict d =>
      match i with
      | VStr k =>
          match lookup k d with
          | Some x => Ok x
          | None => Raise (KeyError i)
          end
      | VList _ | VDict _ => Raise TypeError
      | _ => Raise (KeyError i)
      end
  | _ => Raise TypeError
  end.

(** *** Order ([a < b])

    Numbers are compared exactly, also an integer with a float; strings
    by code point, which on UTF-8 is the order of the bytes. *)

Inductive num : Type :=
| NNan
| NInf (neg : bool)
| NDyadic (m e : Z).

Definition num_of_float (f : spec_float) : num :=
  match f with
  | S754_zero _ => NDyadic 0 0
  | S754_infinity s => NInf s
  | S754_nan => NNan
  | S754_finite s m e => NDyadic (if s then Z.neg m else Z.pos m) e
  end.

Definition as_num (v : value) : option num :=
  match v with
  | VInt z => Some (NDyadic z 0)
  | VBool b => Some (NDyadic (if b then 1 else 0) 0)
  | VFloat f => Some (num_of_float f)
  | _ => None
  end.

Definition num_lt (a b : num) : bool :=
  match a, b with
  | NNan, _ | _, NNan => false
  | NInf sa, NInf sb => sa && negb sb
  | NInf sa, NDyadic _ _ => sa
  | NDyadic _ _, NInf sb => negb sb
  | NDyadic m1 e1, NDyadic m2 e2 =>
      let e := Z.min e1 e2 in
      (m1 * 2 ^ (e1 - e) <? m2 * 2 ^ (e2 - e))%Z
  end.

(** [a < b]; the order of two lists is left to [seq_lt], see
    [Runtime]. *)
Definition lt_with (seq_lt : list value -> list value -> result bool)
  (a b : value) : result bool :=
  match as_num a, as_num b with
  | Some x, Some y => Ok (num_lt x y)
  | _, _ =>
      match a, b with
      | VStr s, VStr t => Ok (String.ltb s t)
      | VList l, VList m => seq_lt l m
      | _, _ => Raise TypeError
      end
  end.

(** [isinstance(v, dict)] *)
Definition is_dict (v : value) : bool :=
  match v with VDict _ => true | _ => false end.

(** [sep.join(l)] for a list of strings is [String.concat sep l]. *)

(** [s.replace(a, b)] for single characters. *)
Fixpoint replace_char (a b : ascii) (s : string) : string :=
  match s with
  | EmptyString => EmptyString
  | String c s' =>
      String (if Ascii.eqb c a then b else c) (replace_char a b s')
  end.

End Py.

(** ** A JSON decoder

    An executable decoder for the JSON grammar as [json.loads] reads it:
    white space is space, tab, line feed and carriage return; strings are
    strict (no raw control character); a number with a fraction or an
    exponent is a float, rounded to nearest even; [NaN], [Infinity] and
    [-Infinity] are accepted; a repeated key keeps its first position and
    its last value.  It instantiates the decoder of the runtime in the
    closed examples below, on short texts.  It has no limit of its own:
    where CPython's decoder gives up on a text that [json] accepts
    ([RecursionError] on nesting deeper than the interpreter allows,
    [ValueError] on an integer of more digits than it converts),
    [loads] still returns the value; the statements about the passes
    are made for every decoder and say what a pass does when its
    decoder raises. *)

Module Json.
Import Py.

Definition dq : ascii := ascii_of_nat 34.
Definition backslash : ascii := ascii_of_nat 92.

Definition is_ws (c : ascii) : bool :=
  let n := N_of_ascii c in
  ((n =? 32) || (n =? 9) || (n =? 10) || (n =? 13))%N.

Fixpoint skip_ws (s : string) : string :=
  match s with
  | String c s' => if is_ws c then skip_ws s' else s
  | EmptyString => s
  end.

Definition is_digit (c : ascii) : bool :=
  let n := N_of_ascii c in ((48 <=? n) && (n <=? 57))%N.

Definition digit_val (c : ascii) : Z := Z.of_N (N_of_ascii c) - 48.

(** The longest prefix of digits: its value, its length, the rest. *)
Fixpoint take_digits (acc : Z) (n : Z) (s : string) : Z * Z * string :=
  match s with
  | String c s' =>
      if is_digit c then take_digits (10 * acc + digit_val c) (n + 1) s'
      else (acc, n, s)
  | EmptyString => (acc, n, s)
  end.

(** The binary64 nearest to [m * 10 ^ e10], for [0 <= m]. *)
Definition float_of_decimal (neg : bool) (m : Z) (e10 : Z) : spec_float :=
  match m with
  | Zpos p =>
      if (0 <=? e10)%Z then
        match (m * 10 ^ e10)%Z with
        | Zpos q => binary_round 53 1024 neg q 0
        | _ => S754_zero neg
        end
      else
        let d := (10 ^ (- e10))%Z in
        let k := Z.max 0 (Zdigits2 d - Zdigits2 m + 64) in
        let n := (m * 2 ^ k)%Z in
        let q := (n / d)%Z in
        let r := (n mod d)%Z in
        let loc := if (r =? 0)%Z then loc_Exact
                   else loc_Inexact (Z.compare (2 * r) d) in
        binary_round_aux 53 1024 neg q (- k) loc
  | _ => S754_zero neg
  end.

Definition apply_sign (neg : bool) (z : Z) : Z := if neg then (- z)%Z else z.

(** The fraction [.ddd] of a number, when a digit follows the point. *)
Definition scan_frac (m : Z) (s : string) : option (Z * Z * string) :=
  match s with
  | String "." (String c _ as s1) =>
      if is_digit c then Some (take_digits m 0 s1) else None
  | _ => None
  end.

(** The exponent [e], [e+] or [e-] followed by at least one digit. *)
Definition scan_exp (s : string) : option (Z * string) :=
  match s with
  | String c s1 =>
      if (Ascii.eqb c "e" || Ascii.eqb c "E")%char then
        let '(neg, s2) :=
          match s1 with
          | String "-" r => (true, r)
          | String "+" r => (false, r)
          | _ => (false, s1)
          end in
        let '(e, n, s3) := take_digits 0 0 s2 in
        if (n =? 0)%Z then None else Some (apply_sign neg e, s3)
      else None
  | EmptyString => None
  end.

Definition scan_number (s : string) : option (value * string) :=
  let '(neg, s1) :=
    match s with
    | String "-" r => (true, r)
    | _ => (false, s)
    end in
  let int_part :=
    match s1 with
    | String c r =>
        if Ascii.eqb c "0" then Some (0%Z, r)
        else if is_digit c then
               let '(m, _, r') := take_digits 0 0 s1 in Some (m, r')
             else None
    | EmptyString => None
    end in
  match int_part with
  | None => None
  | Some (m, r) =>
      let '(frac, r1) :=
        match scan_frac m r with
        | Some (m', n, r') => (Some (m', n), r')
        | None => (None, r)
        end in
      let '(ex, r2) :=
        match scan_exp r1 with
        | Some (e, r') => (Some e, r')
        | None => (None, r1)
        end in
      match frac, ex with
      | None, None => Some (VInt (apply_sign neg m), r2)
      | Some (m', n), None => Some (VFloat (float_of_decimal neg m' (- n)), r2)
      | None, Some e => Some (VFloat (float_of_decimal neg m e), r2)
      | Some (m', n), Some e =>
          Some (VFloat (float_of_decimal neg m' (e - n)), r2)
      end
  end.

(** *** String literals *)

Definition hex_val (c : ascii) : option Z :=
  let n := Z.of_N (N_of_ascii c) in
  if ((48 <=? n) && (n <=? 57))%Z then Some (n - 48)%Z
  else if ((65 <=? n) && (n <=? 70))%Z then Some (n - 55)%Z
  else if ((97 <=? n) && (n <=? 102))%Z then Some (n - 87)%Z
  else None.

Definition hex4 (a b c d : ascii) : option Z :=
  match hex_val a, hex_val b, hex_val c, hex_val d with
  | Some x, Some y, Some z, Some w => Some (4096 * x + 256 * y + 16 * z + w)%Z
  | _, _, _, _ => None
  end.

Definition byte (z : Z) : ascii := ascii_of_N (Z.to_N z).

(** The UTF-8 bytes of a code point (a lone surrogate is encoded like any
    other three-byte code point). *)
Definition utf8 (cp : Z) : string :=
  if (cp <? 128)%Z then String (byte cp) EmptyString
  else if (cp <? 2048)%Z then
    String (byte (192 + cp / 64)) (String (byte (128 + cp mod 64)) EmptyString)
  else if (cp <? 65536)%Z then
    String (byte (224 + cp / 4096))
      (String (byte (128 + (cp / 64) mod 64))
         (String (byte (128 + cp mod 64)) EmptyString))
  else
    String (byte (240 + cp / 262144))
      (String (byte (128 + (cp / 4096) mod 64))
         (String (byte (128 + (cp / 64) mod 64))
            (String (byte (128 + cp mod 64)) EmptyString))).

Definition is_high_surrogate (u : Z) : bool := ((55296 <=? u) && (u <=? 56319))%Z.
Definition is_low_surrogate (u : Z) : bool := ((56320 <=? u) && (u <=? 57343))%Z.

Definition simple_escape (c : ascii) : option ascii :=
  let n := N_of_ascii c in
  if (n =? 34)%N then Some c
  else if (n =? 92)%N then Some c
  else if (n =? 47)%N then Some c
  else if (n =? 98)%N then Some (ascii_of_nat 8)
  else if (n =? 102)%N then Some (ascii_of_nat 12)
  else if (n =? 110)%N then Some (ascii_of_nat 10)
  else if (n =? 114)%N then Some (ascii_of_nat 13)
  else if (n =? 116)%N then Some (ascii_of_nat 9)
  else None.

(** The low half of a surrogate pair, when the input continues with one. *)
Definition scan_low_surrogate (s : string) : option (Z * string) :=
  match s with
  | String b (String u (String a1 (String a2 (String a3 (String a4 r))))) =>
      if (Ascii.eqb b backslash && Ascii.eqb u "u")%char then
        match hex4 a1 a2 a3 a4 with
        | Some lo => if is_low_surrogate lo then Some (lo, r) else None
        | None => None
        end
      else None
  | _ => None
  end.

(** The text of a string literal after its opening quote, and the input
    after its closing quote.  [n] bounds the number of characters read. *)
Fixpoint scan_string (n : nat) (s : string) : option (string * string) :=
  match n with
  | O => None
  | S n' =>
      match s with
      | EmptyString => None
      | String c r =>
          if Ascii.eqb c dq then Some (EmptyString, r)
          else if Ascii.eqb c backslash then
            match r with
            | String e r1 =>
                if Ascii.eqb e "u" then
                  match r1 with
                  | String a1 (String a2 (String a3 (String a4 r2))) =>
                      match hex4 a1 a2 a3 a4 with
                      | Some hi =>
                          let '(cp, r3) :=
                            if is_high_surrogate hi then
                              match scan_low_surrogate r2 with
                              | Some (lo, r') =>
                                  (65536 + (hi - 55296) * 1024 + (lo - 56320), r')%Z
                              | None => (hi, r2)
                              end
                            else (hi, r2) in
                          match scan_string n' r3 with
                          | Some (t, rest) => Some ((utf8 cp ++ t)%string, rest)
                          | None => None
                          end
                      | None => None
                      end
                  | _ => None
                  end
                else
                  match simple_escape e with
                  | Some x =>
                      match scan_string n' r1 with
                      | Some (t, rest) => Some (String x t, rest)
                      | None => None
                      end
                  | None => None
                  end
            | EmptyString => None
            end
          else if (N_of_ascii c <? 32)%N then None
          else
            match scan_string n' r with
            | Some (t, rest) => Some (String c t, rest)
            | None => None
            end
      end
  end.

(** *** Values *)

Definition strip_prefix (p s : string) : option string :=
  if String.prefix p s
  then Some (String.substring (String.length p) (String.length s - String.length p) s)
  else None.

Definition nan : spec_float := S754_nan.
Definition inf (neg : bool) : spec_float := S754_infinity neg.

(** Constants and numbers, in the order the scanner tries them. *)
Definition scan_atom (s : string) : option (value * string) :=
  match strip_prefix "null" s with
  | Some r => Some (VNone, r)
  | None =>
  match strip_prefix "true" s with
  | Some r => Some (VBool true, r)
  | None =>
  match strip_prefix "false" s with
  | Some r => Some (VBool false, r)
  | None =>
  match strip_prefix "NaN" s with
  | Some r => Some (VFloat nan, r)
  | None =>
  match strip_prefix "Infinity" s with
  | Some r => Some (VFloat (inf false), r)
  | None =>
  match strip_prefix "-Infinity" s with
  | Some r => Some (VFloat (inf true), r)
  | None => scan_number s
  end end end end end end.

Definition expect {A} (o : option A) : result A :=
  match o with
  | Some a => Ok a
  | None => Raise JSONDecodeError
  end.

(** One unit of [fuel] is spent per value and per separator; twice the
    length of the input is enough, and running out is reported as the
    decoder's recursion error. *)
Fixpoint scan_value (fuel : nat) (s : string) : result (value * string) :=
  match fuel with
  | O => Raise RecursionError
  | S fuel' =>
      match s with
      | String c r =>
          if Ascii.eqb c dq then
            '(t, rest) <- expect (scan_string (String.length r) r) ;;
            Ok (VStr t, rest)
          else if Ascii.eqb c "[" then
            match skip_ws r with
            | String "]" rest => Ok (VList [], rest)
            | r1 => '(l, rest) <- scan_elems fuel' r1 ;; Ok (VList l, rest)
            end
          else if Ascii.eqb c "{" then
            match skip_ws r with
            | String "}" rest => Ok (VDict [], rest)
            | r1 => '(d, rest) <- scan_members fuel' r1 [] ;; Ok (VDict d, rest)
            end
          else expect (scan_atom s)
      | EmptyString => Raise JSONDecodeError
      end
  end

with scan_elems (fuel : nat) (s : string) : result (list value * string) :=
  match fuel with
  | O => Raise RecursionError
  | S fuel' =>
      '(v, r) <- scan_value fuel' s ;;
      match skip_ws r with
      | String "]" rest => Ok ([v], rest)
      | String "," r1 =>
          '(l, rest) <- scan_elems fuel' (skip_ws r1) ;; Ok (v :: l, rest)
      | _ => Raise JSONDecodeError
      end
  end

with scan_members (fuel : nat) (s : string) (acc : dict)
  : result (dict * string) :=
  match fuel with
  | O => Raise RecursionError
  | S fuel' =>
      match s with
      | String q r =>
          if Ascii.eqb q dq then
            '(k, r1) <- expect (scan_string (String.length r) r) ;;
            match skip_ws r1 with
            | String ":" r2 =>
                '(v, r3) <- scan_value fuel' (skip_ws r2) ;;
                let acc' := dict_set acc k v in
                match skip_ws r3 with
                | String "}" rest => Ok (acc', rest)
                | String "," r4 => scan_members fuel' (skip_ws r4) acc'
                | _ => Raise JSONDecodeError
                end
            | _ => Raise JSONDecodeError
            end
          else Raise JSONDecodeError
      | EmptyString => Raise JSONDecodeError
      end
  end.

(** [json.loads(s)] *)
Definition loads (s : string) : result value :=
  '(v, r) <- scan_value (2 * String.length s + 2) (skip_ws s) ;;
  match skip_ws r with
  | EmptyString => Ok v
  | _ => Raise JSONDecodeError
  end.

End Json.

(** ** The runtime

    What the pipeline uses of Python and its libraries without defining
    it: the decoder and encoder of [json], [str()] on values and on
    exceptions, [str.title], the order of two lists.  The passes are
    stated for every runtime; [Json.loads] is one decoder. *)

Module Runtime.
Import Py.

Class Runtime : Type := {
  json_loads : string -> result value;
  (** [json.dumps(v, indent=2)] *)
  json_dumps : value -> string;
  (** [str(v)], which an f-string applies to the value it interpolates *)
  str : value -> string;
  (** [str(e)] for an exception *)
  exn_str : exn -> string;
  (** [s.title()] *)
  title : string -> string;
  (** [l < m] for two lists *)
  seq_lt : list value -> list value -> result bool
}.

Definition lt `{Runtime} (a b : value) : result bool := lt_with seq_lt a b.

(** [a > b] *)
Definition gt `{Runtime} (a b : value) : result bool := lt b a.

(** [min(l)] for a non-empty list: the first of the least elements. *)
Definition py_min `{Runtime} (first : value) (rest : list value)
  : result value :=
  for_each rest
    (fun m x => c <- lt x m ;; Ok (if c then x else m)) first.

(** [max(l)] for a non-empty list: the first of the greatest elements. *)
Definition py_max `{Runtime} (first : value) (rest : list value)
  : result value :=
  for_each rest
    (fun m x => c <- gt x m ;; Ok (if c then x else m)) first.

Definition nl : string := String (ascii_of_nat 10) EmptyString.

(** Template text is written with a backquote where the source has a
    double quote; the templates of the source hold no backquote. *)
Definition tpl (s : string) : string := replace_char "`" Json.dq s.

End Runtime.

(** ** The analysis orchestrator
    (src/customer_language_miner/analysis/claude_analyzer.py) *)

Module Analyzer.
Import Py Runtime.

(** *** The LLM client and the console *)

Record chat_message : Type := { role : string; content : string }.

(** The arguments of [client.messages.create]. *)
Record request : Type := {
  req_model : string;
  req_max_tokens : Z;
  req_temperature : spec_float;
  req_messages : list chat_message
}.

(** A content block of a response; only a text block has [.text]. *)
Inductive block : Type :=
| TextBlock (text : string)
| OtherBlock.

Definition block_text (b : block) : result string :=
  match b with
  | TextBlock t => Ok t
  | OtherBlock => Raise AttributeError
  end.

Record message : Type := { msg_content : list block }.

(** What a pass can change: the requests sent so far and the lines
    printed so far. *)
Record world : Type := { calls : list request; stdout : list string }.

(** [ClaudeAnalyzer]: the client answers a request, or raises; its answer
    may depend on the requests it has already seen. *)
Record ClaudeAnalyzer : Type := {
  client : list request -> request -> result message;
  model : string
}.

Definition print (line : string) (w : world) : world :=
  {| calls := calls w; stdout := stdout w +++ [line] |}.

(** [self.client.messages.create(...)] *)
Definition messages_create (self : ClaudeAnalyzer) (req : request) (w : world)
  : result message * world :=
  (client self (calls w) req,
   {| calls := calls w +++ [req]; stdout := stdout w |}).

(** A float literal of the source, [m * 10 ^ e]. *)
Definition float_lit (m e : Z) : spec_float := Json.float_of_decimal false m e.

(** [message.content[0].text] *)
Definition first_text (m : message) : result string :=
  b <- list_index (msg_content m) 0 ;; block_text b.

(** *** The pattern-extraction pass *)

(** The text of the prompt between its interpolations. *)
Definition analysis_prompt_head : string := tpl
"You are an expert copywriter and customer research analyst. Analyze the following customer language samples to extract insights for advertising and marketing.

".

Definition analysis_prompt_samples : string := tpl
"

CUSTOMER LANGUAGE SAMPLES:
".

Definition analysis_prompt_schema : string := tpl
"

Please analyze these samples and provide a comprehensive JSON response with the following structure:

{
  `emotional_patterns`: [
    {
      `emotion`: `name of emotion (e.g., frustration, hope, fear, desire)`,
      `frequency`: `high/medium/low`,
      `example_quotes`: [`quote 1`, `quote 2`, `quote 3`],
      `trigger_words`: [`word1`, `word2`],
      `advertising_angle`: `how to use this emotion in ads`
    }
  ],
  `pain_points`: [
    {
      `pain_point`: `description of the problem`,
      `severity`: `critical/major/minor`,
      `frequency_mentioned`: `percentage or count`,
      `customer_quotes`: [`quote 1`, `quote 2`],
      `before_state`: `how customers describe life before solution`,
      `desired_outcome`: `what they want instead`
    }
  ],
  `desire_triggers`: [
    {
      `desire`: `what customers want to achieve/become`,
      `intensity`: `high/medium/low`,
      `language_patterns`: [`pattern 1`, `pattern 2`],
      `example_quotes`: [`quote 1`, `quote 2`],
      `aspirational_identity`: `who they want to be`
    }
  ],
  `awareness_stages`: {
    `unaware`: {
      `indicators`: [`phrases that show no awareness of problem`],
      `quotes`: [`example quotes`]
    },
    `problem_aware`: {
      `indicators`: [`phrases showing they know the problem`],
      `quotes`: [`example quotes`]
    },
    `solution_aware`: {
      `indicators`: [`phrases showing they know solutions exist`],
      `quotes`: [`example quotes`]
    },
    `product_aware`: {
      `indicators`: [`phrases showing they know specific products`],
      `quotes`: [`example quotes`]
    },
    `most_aware`: {
      `indicators`: [`phrases from current/past customers`],
      `quotes`: [`example quotes`]
    }
  },
  `language_patterns`: {
    `commonly_used_phrases`: [`phrase 1`, `phrase 2`],
    `metaphors_analogies`: [`metaphor 1`, `metaphor 2`],
    `objections`: [`objection 1`, `objection 2`],
    `questions_asked`: [`question 1`, `question 2`],
    `vocabulary_level`: `simple/moderate/technical`,
    `tone`: `casual/professional/emotional`
  },
  `key_insights`: [
    `insight 1`,
    `insight 2`,
    `insight 3`
  ]
}

Focus on extracting EXACT phrases and quotes that can be used directly in ad copy. Prioritize emotional, vivid language over generic descriptions.".

(** [_build_analysis_prompt] *)
Definition _build_analysis_prompt (texts : list string) (context : string)
  : string :=
  let combined_texts :=
    String.concat (nl ++ nl ++ "---" ++ nl ++ nl) (firstn 100 texts) in
  analysis_prompt_head
  ++ (if negb (context =? "") then "PRODUCT/CATEGORY CONTEXT: " ++ context
      else "")
  ++ analysis_prompt_samples
  ++ combined_texts
  ++ analysis_prompt_schema.

Definition user_request (self : ClaudeAnalyzer) (max_tokens : Z)
  (temperature : spec_float) (prompt : string) : request :=
  {| req_model := model self;
     req_max_tokens := max_tokens;
     req_temperature := temperature;
     req_messages := [ {| role := "user"; content := prompt |} ] |}.

(** The inner [try] of a pass: the decoded response, or the response
    wrapped under [key] when it does not decode. *)
Definition loads_or_wrap `{Runtime} (key : string) (response_text : string)
  : result value :=
  match json_loads response_text with
  | Ok v => Ok v
  | Raise JSONDecodeError => Ok (VDict [(key, VStr response_text)])
  | Raise e => Raise e
  end.

(** [analyze_batch] *)
Definition analyze_batch `{Runtime} (self : ClaudeAnalyzer)
  (texts : list string) (context : string) (max_tokens : Z) (w : world)
  : result value * world :=
  let prompt := _build_analysis_prompt texts context in
  let '(r, w1) :=
    messages_create self (user_request self max_tokens (float_lit 3 (-1)) prompt) w in
  match (message <- r ;;
         response_text <- first_text message ;;
         loads_or_wrap "raw_analysis" response_text) with
  | Ok analysis => (Ok analysis, w1)
  | Raise e =>
      (Ok (VDict [("error", VStr (exn_str e))]),
       print ("Error during Claude analysis: " ++ exn_str e) w1)
  end.

(** *** The ad-framework pass *)

(** The text of the prompt before and after [json.dumps(analysis,
    indent=2)]. *)
Definition framework_prompt_head : string := tpl
"Based on the following customer language analysis, create ad-ready hooks and body copy frameworks.

ANALYSIS DATA:
".

Definition framework_prompt_schema : string := tpl
"

Generate a JSON response with this structure:

{
  `hooks`: {
    `problem_aware`: [
      `Hook 1 using customer language`,
      `Hook 2 using customer language`,
      `Hook 3 using customer language`
    ],
    `solution_aware`: [
      `Hook 1`,
      `Hook 2`,
      `Hook 3`
    ],
    `product_aware`: [
      `Hook 1`,
      `Hook 2`,
      `Hook 3`
    ]
  },
  `body_copy_frameworks`: [
    {
      `framework_name`: `Problem-Agitate-Solution`,
      `target_awareness`: `problem_aware`,
      `structure`: {
        `problem`: `Using customer's exact language to describe problem`,
        `agitate`: `Making them feel the pain using their words`,
        `solution`: `Presenting solution in their language`
      },
      `example`: `Full example copy using customer quotes`
    },
    {
      `framework_name`: `Before-After-Bridge`,
      `target_awareness`: `solution_aware`,
      `structure`: {
        `before`: `Customer's current state in their words`,
        `after`: `Desired outcome in their words`,
        `bridge`: `How to get there`
      },
      `example`: `Full example copy`
    }
  ],
  `headline_formulas`: [
    `Formula 1 with customer language`,
    `Formula 2 with customer language`
  ],
  `call_to_action_suggestions`: [
    `CTA 1 based on desires`,
    `CTA 2 based on pain points`
  ],
  `objection_handlers`: [
    {
      `objection`: `Common objection from analysis`,
      `response`: `How to handle it using customer language`
    }
  ]
}

Use EXACT customer quotes wherever possible. Make it ready to copy-paste into ads.".

(** [generate_ad_copy_framework] *)
Definition generate_ad_copy_framework `{Runtime} (self : ClaudeAnalyzer)
  (analysis : value) (max_tokens : Z) (w : world) : result value * world :=
  let prompt :=
    framework_prompt_head ++ json_dumps analysis ++ framework_prompt_schema in
  let '(r, w1) :=
    messages_create self (user_request self max_tokens (float_lit 4 (-1)) prompt) w in
  match (message <- r ;;
         response_text <- first_text message ;;
         loads_or_wrap "raw_framework" response_text) with
  | Ok ad_framework => (Ok ad_framework, w1)
  | Raise e =>
      (Ok (VDict [("error", VStr (exn_str e))]),
       print ("Error generating ad copy framework: " ++ exn_str e) w1)
  end.

(** *** The awareness categorization pass *)

(** The text of the prompt before and after [json.dumps(texts,
    indent=2)]. *)
Definition categorize_prompt_head : string := tpl
"Categorize each of these customer texts by Eugene Schwartz's 5 stages of awareness:
1. Unaware - Don't know they have a problem
2. Problem Aware - Know the problem, not the solution
3. Solution Aware - Know solutions exist, not which one
4. Product Aware - Know about specific products/options
5. Most Aware - Ready to buy, just comparing

TEXTS TO CATEGORIZE:
".

Definition categorize_prompt_schema : string := tpl
"

Respond with JSON:
{
  `categorized`: [
    {
      `text_index`: 0,
      `stage`: `problem_aware`,
      `confidence`: `high/medium/low`,
      `reasoning`: `why this categorization`
    }
  ]
}".

Definition stage_keys : list string :=
  ["unaware"; "problem_aware"; "solution_aware"; "product_aware"; "most_aware"].

(** [stage in categorized]: a list or a dict is not hashable; no other
    value than a string equals a key. *)
Definition contains (d : dict) (k : value) : result bool :=
  match k with
  | VStr s => Ok (has_key s d)
  | VList _ | VDict _ => Raise TypeError
  | _ => Ok false
  end.

(** [d[k].append(x)] *)
Definition append_at (d : dict) (k : value) (x : value) : result dict :=
  l <- getitem (VDict d) k ;;
  match l, k with
  | VList xs, VStr s => Ok (dict_set d s (VList (xs +++ [x])))
  | _, _ => Raise AttributeError
  end.

(** The body of the loop over the assignments of the response. *)
Definition bucket `{Runtime} (data : list dict) (categorized : dict)
  (item : value) : result dict :=
  idx <- getitem item (VStr "text_index") ;;
  stage <- getitem item (VStr "stage") ;;
  in_range <- lt idx (VInt (Z.of_nat (length data))) ;;
  if in_range then
    known <- contains categorized stage ;;
    if known then
      x <- getitem (VList (map VDict data)) idx ;;
      append_at categorized stage x
    else Ok categorized
  else Ok categorized.

(** The part of the [try] block after the response text is read. *)
Definition organize `{Runtime} (data : list dict) (response_text : string)
  : result value :=
  result <- json_loads response_text ;;
  assignments <- get result "categorized" (VList []) ;;
  items <- iter assignments ;;
  categorized <-
    for_each items (bucket data)
      (map (fun k => (k, VList [])) stage_keys) ;;
  Ok (VDict categorized).

(** [[item[text_field] for item in data if text_field in item][:50]] *)
Definition sample_texts (data : list dict) (text_field : string) : list value :=
  firstn 50
    (flat_map (fun item => match lookup text_field item with
                           | Some t => [t]
                           | None => []
                           end) data).

(** [categorize_by_awareness] *)
Definition categorize_by_awareness `{Runtime} (self : ClaudeAnalyzer)
  (data : list dict) (text_field : string) (w : world)
  : result value * world :=
  let texts := sample_texts data text_field in
  if negb (truthy (VList texts)) then (Ok (VDict []), w)
  else
    let prompt :=
      categorize_prompt_head ++ json_dumps (VList texts)
      ++ categorize_prompt_schema in
    let '(r, w1) :=
      messages_create self (user_request self 3000 (float_lit 2 (-1)) prompt) w in
    match (message <- r ;;
           response_text <- first_text message ;;
           organize data response_text) with
    | Ok categorized => (Ok categorized, w1)
    | Raise e =>
        (Ok (VDict []),
         print ("Error categorizing by awareness: " ++ exn_str e) w1)
    end.

(** *** The request of each pass and the world after it is sent *)

Definition analysis_request (self : ClaudeAnalyzer) (texts : list string)
  (context : string) (max_tokens : Z) : request :=
  user_request self max_tokens (float_lit 3 (-1))
    (_build_analysis_prompt texts context).

Definition framework_request `{Runtime} (self : ClaudeAnalyzer)
  (analysis : value) (max_tokens : Z) : request :=
  user_request self max_tokens (float_lit 4 (-1))
    (framework_prompt_head ++ json_dumps analysis ++ framework_prompt_schema).

Definition categorize_request `{Runtime} (self : ClaudeAnalyzer)
  (data : list dict) (text_field : string) : request :=
  user_request self 3000 (float_lit 2 (-1))
    (categorize_prompt_head ++ json_dumps (VList (sample_texts data text_field))
     ++ categorize_prompt_schema).

(** One more request, nothing printed. *)
Definition sent (req : request) (w : world) : world :=
  {| calls := calls w +++ [req]; stdout := stdout w |}.

(** The separator between two text units of the prompt. *)
Definition separator : string := nl ++ nl ++ "---" ++ nl ++ nl.

End Analyzer.

(** ** The report assembler
    (src/customer_language_miner/output_generator/message_map.py) *)

Module MessageMap.
Import Py Runtime.

(** [seq[0][key] if seq else "N/A"] *)
Definition first_field (seq : value) (key : string) : result value :=
  if truthy seq then
    x <- getitem seq (VInt 0) ;; getitem x (VStr key)
  else Ok (VStr "N/A").

(** [_generate_summary] *)
Definition _generate_summary (analysis : dict) : result value :=
  let pain_points := dict_get analysis "pain_points" (VList []) in
  let emotions := dict_get analysis "emotional_patterns" (VList []) in
  let desires := dict_get analysis "desire_triggers" (VList []) in
  top_pain_point <- first_field pain_points "pain_point" ;;
  dominant_emotion <- first_field emotions "emotion" ;;
  primary_desire <- first_field desires "desire" ;;
  total_emotional_patterns <- len emotions ;;
  total_pain_points <- len pain_points ;;
  total_desire_triggers <- len desires ;;
  Ok (VDict [("top_pain_point", top_pain_point);
             ("dominant_emotion", dominant_emotion);
             ("primary_desire", primary_desire);
             ("total_emotional_patterns", VInt total_emotional_patterns);
             ("total_pain_points", VInt total_pain_points);
             ("total_desire_triggers", VInt total_desire_triggers)]).

(** [_get_date_range] *)
Definition date_of (item : dict) : value :=
  py_or (py_or (dict_get_none item "created_utc")
               (dict_get_none item "published_at"))
        (dict_get_none item "date").

Definition collect_dates (raw_data : list dict) : list value :=
  fold_left
    (fun (dates : list value) item =>
       let date_str := date_of item in
       if truthy date_str then dates +++ [date_str] else dates)
    raw_data [].

Definition _get_date_range `{Runtime} (raw_data : list dict) : result value :=
  match collect_dates raw_data with
  | first :: rest =>
      earliest <- py_min first rest ;;
      latest <- py_max first rest ;;
      Ok (VDict [("earliest", earliest); ("latest", latest)])
  | [] => Ok (VDict [("earliest", VStr "N/A"); ("latest", VStr "N/A")])
  end.

(** [sources[source] = sources.get(source, 0) + 1] *)
Definition count_source (sources : dict) (item : dict) : result dict :=
  match dict_get item "source" (VStr "unknown") with
  | VStr source =>
      match dict_get sources source (VInt 0) with
      | VInt n => Ok (dict_set sources source (VInt (n + 1)))
      | _ => Raise TypeError
      end
  | VList _ | VDict _ => Raise TypeError
  | _ => Raise Unmodelled
  end.

(** [_summarize_raw_data] *)
Definition _summarize_raw_data `{Runtime} (raw_data : list dict)
  : result value :=
  let total_items := Z.of_nat (length raw_data) in
  sources <- for_each raw_data count_source [] ;;
  date_range <- _get_date_range raw_data ;;
  Ok (VDict [("total_items", VInt total_items);
             ("sources", VDict sources);
             ("date_range", date_range)]).

(** [x or {}] and [x if x else None] on an optional argument. *)
Definition or_empty (metadata : option dict) : value :=
  match metadata with
  | Some d => py_or (VDict d) (VDict [])
  | None => VDict []
  end.

(** [generate_message_map]; [now] is [datetime.now().isoformat()]. *)
Definition generate_message_map `{Runtime} (now : string)
  (analysis ad_framework : dict) (raw_data : option (list dict))
  (metadata : option dict) : result value :=
  executive_summary <- _generate_summary analysis ;;
  raw_data_summary <-
    match raw_data with
    | Some (_ :: _ as l) => _summarize_raw_data l
    | _ => Ok VNone
    end ;;
  Ok (VDict
    [("generated_at", VStr now);
     ("metadata", or_empty metadata);
     ("executive_summary", executive_summary);
     ("emotional_intelligence", dict_get analysis "emotional_patterns" (VList []));
     ("pain_points", dict_get analysis "pain_points" (VList []));
     ("desire_triggers", dict_get analysis "desire_triggers" (VList []));
     ("awareness_stages", dict_get analysis "awareness_stages" (VDict []));
     ("language_patterns", dict_get analysis "language_patterns" (VDict []));
     ("ad_ready_hooks", dict_get ad_framework "hooks" (VDict []));
     ("body_copy_frameworks", dict_get ad_framework "body_copy_frameworks" (VList []));
     ("headline_formulas", dict_get ad_framework "headline_formulas" (VList []));
     ("call_to_actions", dict_get ad_framework "call_to_action_suggestions" (VList []));
     ("objection_handlers", dict_get ad_framework "objection_handlers" (VList []));
     ("key_insights", dict_get analysis "key_insights" (VList []));
     ("raw_data_summary", raw_data_summary)]).

(** *** The prose encoding *)

(** [for x in xs: md.append(...)], where [body x] is what one round
    appends. *)
Definition emit {A} (xs : list A) (body : A -> result (list string))
  (md : list string) : result (list string) :=
  for_each xs (fun md x => ls <- body x ;; Ok (md +++ ls)) md.

(** [v.title()] *)
Definition title_of `{Runtime} (v : value) : result string :=
  match v with
  | VStr s => Ok (title s)
  | _ => Raise AttributeError
  end.

(** [> quote] for each quote of [v.get(key, [])] *)
Definition quote_lines `{Runtime} (v : value) (key : string)
  : result (list string) :=
  quotes <- get v key (VList []) ;;
  quotes <- iter quotes ;;
  Ok (map (fun quote => "> " ++ str quote) quotes).

Definition md_pain `{Runtime} (i : Z) (pain : value) : result (list string) :=
  name <- get pain "pain_point" (VStr "N/A") ;;
  severity <- get pain "severity" (VStr "N/A") ;;
  quotes <- quote_lines pain "customer_quotes" ;;
  Ok (["### " ++ str (VInt i) ++ ". " ++ str name;
       "**Severity:** " ++ str severity;
       nl ++ "**Customer Quotes:**"] +++ quotes +++ [""]).

Definition md_emotion `{Runtime} (emotion : value) : result (list string) :=
  name <- get emotion "emotion" (VStr "N/A") ;;
  name <- title_of name ;;
  frequency <- get emotion "frequency" (VStr "N/A") ;;
  angle <- get emotion "advertising_angle" (VStr "N/A") ;;
  quotes <- quote_lines emotion "example_quotes" ;;
  Ok (["### " ++ name;
       "**Frequency:** " ++ str frequency;
       "**Advertising Angle:** " ++ str angle;
       nl ++ "**Example Quotes:**"] +++ quotes +++ [""]).

Definition stages : list (string * string) :=
  [("unaware", "Unaware");
   ("problem_aware", "Problem Aware");
   ("solution_aware", "Solution Aware");
   ("product_aware", "Product Aware");
   ("most_aware", "Most Aware")].

Definition md_stage `{Runtime} (awareness : value) (stage : string * string)
  : result (list string) :=
  let '(stage_key, stage_name) := stage in
  stage_data <- get awareness stage_key (VDict []) ;;
  if truthy stage_data then
    indicators <- get stage_data "indicators" (VList []) ;;
    indicators <- iter indicators ;;
    quotes <- quote_lines stage_data "quotes" ;;
    Ok (["### " ++ stage_name; nl ++ "**Key Phrases:**"]
        +++ map (fun indicator => "- " ++ str indicator) indicators
        +++ [nl ++ "**Example Quotes:**"] +++ quotes +++ [""])
  else Ok [].

Definition stage_title `{Runtime} (stage : string) : string :=
  title (replace_char "_" " " stage).

Definition md_hooks `{Runtime} (entry : string * value) : result (list string) :=
  let '(stage, hook_list) := entry in
  hook_list <- iter hook_list ;;
  Ok (["### " ++ stage_title stage]
      +++ map (fun hook => "- " ++ str hook) hook_list +++ [""]).

Definition md_framework `{Runtime} (framework : value) : result (list string) :=
  name <- get framework "framework_name" (VStr "N/A") ;;
  target <- get framework "target_awareness" (VStr "N/A") ;;
  example <- get framework "example" (VStr "N/A") ;;
  Ok ["### " ++ str name;
      "**Target Awareness:** " ++ str target;
      nl ++ "**Example:**";
      "> " ++ str example;
      ""].

Definition md_objection `{Runtime} (obj : value) : result (list string) :=
  objection <- get obj "objection" (VStr "N/A") ;;
  response <- get obj "response" (VStr "N/A") ;;
  Ok ["**Objection:** " ++ str objection;
      "**Response:** " ++ str response;
      ""].

(** Rounds of a loop numbered from [start], as [enumerate] numbers them. *)
Fixpoint enumerate {A} (start : Z) (xs : list A) : list (Z * A) :=
  match xs with
  | [] => []
  | x :: xs' => (start, x) :: enumerate (start + 1) xs'
  end.

(** The list [md] of [_generate_markdown] when it is joined. *)
Definition markdown_lines `{Runtime} (message_map : dict)
  : result (list string) :=
  let md := ["# Customer Language Message Map";
             nl ++ "Generated: "
             ++ str (dict_get message_map "generated_at" (VStr "N/A")) ++ nl;
             "## Executive Summary" ++ nl] in
  let summary := dict_get message_map "executive_summary" (VDict []) in
  top <- get summary "top_pain_point" (VStr "N/A") ;;
  dominant <- get summary "dominant_emotion" (VStr "N/A") ;;
  primary <- get summary "primary_desire" (VStr "N/A") ;;
  total <- get summary "total_emotional_patterns" (VInt 0) ;;
  let md := (md +++ ["- **Top Pain Point:** " ++ str top;
                    "- **Dominant Emotion:** " ++ str dominant;
                    "- **Primary Desire:** " ++ str primary;
                    "- **Total Patterns Identified:** " ++ str total;
                    "";
                    "## Key Insights" ++ nl]) in
  insights <- iter (dict_get message_map "key_insights" (VList [])) ;;
  md <- emit insights (fun insight => Ok ["- " ++ str insight]) md ;;
  let md := md +++ [""; "## Pain Points" ++ nl] in
  pains <- iter (dict_get message_map "pain_points" (VList [])) ;;
  md <- emit (enumerate 1 pains) (fun p => md_pain (fst p) (snd p)) md ;;
  let md := md +++ ["## Emotional Patterns" ++ nl] in
  emotions <- iter (dict_get message_map "emotional_intelligence" (VList [])) ;;
  md <- emit emotions md_emotion md ;;
  let md := md +++ ["## Customer Awareness Stages" ++ nl] in
  let awareness := dict_get message_map "awareness_stages" (VDict []) in
  md <- emit stages (md_stage awareness) md ;;
  let md := md +++ ["## Ad-Ready Hooks" ++ nl] in
  hooks <- items (dict_get message_map "ad_ready_hooks" (VDict [])) ;;
  md <- emit hooks md_hooks md ;;
  let md := md +++ ["## Body Copy Frameworks" ++ nl] in
  frameworks <- iter (dict_get message_map "body_copy_frameworks" (VList [])) ;;
  md <- emit frameworks md_framework md ;;
  let md := md +++ ["## Call to Action Suggestions" ++ nl] in
  ctas <- iter (dict_get message_map "call_to_actions" (VList [])) ;;
  md <- emit ctas (fun cta => Ok ["- " ++ str cta]) md ;;
  let md := md +++ [""; "## Objection Handlers" ++ nl] in
  objections <- iter (dict_get message_map "objection_handlers" (VList [])) ;;
  emit objections md_objection md.

(** [_generate_markdown] *)
Definition _generate_markdown `{Runtime} (message_map : dict) : result string :=
  md <- markdown_lines message_map ;; Ok (String.concat nl md).

(** *** The styled encoding *)

(** The page is assembled from the text of the templates ([Lit]) and the
    values they interpolate ([Val]). *)
Inductive frag : Type :=
| Lit (s : string)
| Val (s : string).

Definition frag_text (f : frag) : string :=
  match f with
  | Lit s => s
  | Val s => s
  end.

(** The text of each template between its interpolations, in the order
    of the source: the page down to the list of insights, an insight, the
    head of the pain points, a pain point, a quote, and so on. *)
Definition html_page_0 : string := tpl
"<!DOCTYPE html>
<html lang=`en`>
<head>
    <meta charset=`UTF-8`>
    <meta name=`viewport` content=`width=device-width, initial-scale=1.0`>
    <title>Customer Language Message Map</title>
    <style>
        body {
            font-family: -apple-system, BlinkMacSystemFont, 'Segoe UI', Roboto, Oxygen, Ubuntu, Cantarell, sans-serif;
            line-height: 1.6;
            max-width: 1200px;
            margin: 0 auto;
            padding: 20px;
            background: #f5f5f5;
        }
        .container {
            background: white;
            padding: 30px;
            border-radius: 8px;
            box-shadow: 0 2px 4px rgba(0,0,0,0.1);
        }
        h1 { color: #2c3e50; border-bottom: 3px solid #3498db; padding-bottom: 10px; }
        h2 { color: #34495e; margin-top: 30px; border-left: 4px solid #3498db; padding-left: 10px; }
        h3 { color: #7f8c8d; }
        .summary {
            background: #ecf0f1;
            padding: 20px;
            border-radius: 5px;
            margin: 20px 0;
        }
        .quote {
            border-left: 4px solid #3498db;
            padding-left: 15px;
            margin: 10px 0;
            font-style: italic;
            color: #555;
        }
        .hook {
            background: #e8f8f5;
            padding: 10px 15px;
            margin: 10px 0;
            border-radius: 5px;
            border-left: 3px solid #27ae60;
        }
        .pain-point {
            background: #fdedec;
            padding: 15px;
            margin: 15px 0;
            border-radius: 5px;
            border-left: 3px solid #e74c3c;
        }
        .emotion {
            background: #fff9e6;
            padding: 15px;
            margin: 15px 0;
            border-radius: 5px;
            border-left: 3px solid #f39c12;
        }
        .framework {
            background: #f0f8ff;
            padding: 15px;
            margin: 15px 0;
            border-radius: 5px;
            border: 1px solid #3498db;
        }
        .badge {
            display: inline-block;
            padding: 3px 8px;
            border-radius: 3px;
            font-size: 12px;
            font-weight: bold;
            margin-right: 5px;
        }
        .badge-high { background: #e74c3c; color: white; }
        .badge-medium { background: #f39c12; color: white; }
        .badge-low { background: #27ae60; color: white; }
    </style>
</head>
<body>
    <div class=`container`>
        <h1>Customer Language Message Map</h1>
        <p><strong>Generated:</strong> ".

Definition html_page_1 : string := tpl
"</p>

        <div class=`summary`>
            <h2>Executive Summary</h2>
            <p><strong>Top Pain Point:</strong> ".

Definition html_page_2 : string := tpl
"</p>
            <p><strong>Dominant Emotion:</strong> ".

Definition html_page_3 : string := tpl
"</p>
            <p><strong>Primary Desire:</strong> ".

Definition html_page_4 : string := tpl
"</p>
            <p><strong>Patterns Identified:</strong> ".

Definition html_page_5 : string := tpl
" emotional patterns,
               ".

Definition html_page_6 : string := tpl
" pain points,
               ".

Definition html_page_7 : string := tpl
" desire triggers</p>
        </div>

        <h2>Key Insights</h2>
        <ul>
".

Definition html_insight_0 : string := tpl
"            <li>".

Definition html_insight_1 : string := tpl
"</li>
".

Definition html_pain_points_0 : string := tpl
"        </ul>

        <h2>Pain Points</h2>
".

Definition html_pain_0 : string := tpl
"        <div class=`pain-point`>
            <h3>".

Definition html_pain_1 : string := tpl
" <span class=`badge badge-".

Definition html_pain_2 : string := tpl
"`>".

Definition html_pain_3 : string := tpl
"</span></h3>
            <p><strong>Customer Quotes:</strong></p>
".

Definition html_quote_0 : string := tpl
"            <div class=`quote`>".

Definition html_quote_1 : string := tpl
"</div>
".

Definition html_pain_end_0 : string := tpl
"        </div>
".

Definition html_hooks_0 : string := tpl
"
        <h2>Ad-Ready Hooks</h2>
".

Definition html_stage_0 : string := tpl
"        <h3>".

Definition html_stage_1 : string := tpl
"</h3>
".

Definition html_hook_0 : string := tpl
"        <div class=`hook`>".

Definition html_hook_1 : string := tpl
"</div>
".

Definition html_frameworks_0 : string := tpl
"
        <h2>Body Copy Frameworks</h2>
".

Definition html_framework_0 : string := tpl
"        <div class=`framework`>
            <h3>".

Definition html_framework_1 : string := tpl
"</h3>
            <p><strong>Target Awareness:</strong> ".

Definition html_framework_2 : string := tpl
"</p>
            <p><strong>Example:</strong></p>
            <div class=`quote`>".

Definition html_framework_3 : string := tpl
"</div>
        </div>
".

Definition html_end_0 : string := tpl
"    </div>
</body>
</html>".

(** [html += ...] in a loop *)
Definition extend {A} (xs : list A) (body : A -> result (list frag))
  (html : list frag) : result (list frag) :=
  for_each xs (fun html x => fs <- body x ;; Ok (html +++ fs)) html.

Definition html_quote `{Runtime} (quote : value) : list frag :=
  [Lit html_quote_0; Val (str quote); Lit html_quote_1].

Definition html_pain `{Runtime} (pain : value) : result (list frag) :=
  severity <- get pain "severity" (VStr "medium") ;;
  name <- get pain "pain_point" (VStr "N/A") ;;
  quotes <- get pain "customer_quotes" (VList []) ;;
  quotes <- iter quotes ;;
  Ok ([Lit html_pain_0; Val (str name); Lit html_pain_1; Val (str severity);
       Lit html_pain_2; Val (str severity); Lit html_pain_3]
      +++ flat_map html_quote quotes +++ [Lit html_pain_end_0]).

Definition html_hooks `{Runtime} (entry : string * value) : result (list frag) :=
  let '(stage, hooks) := entry in
  hooks <- iter hooks ;;
  Ok ([Lit html_stage_0; Val (stage_title stage); Lit html_stage_1]
      +++ flat_map (fun hook => [Lit html_hook_0; Val (str hook); Lit html_hook_1])
            hooks).

Definition html_framework `{Runtime} (framework : value) : result (list frag) :=
  name <- get framework "framework_name" (VStr "N/A") ;;
  target <- get framework "target_awareness" (VStr "N/A") ;;
  example <- get framework "example" (VStr "N/A") ;;
  Ok [Lit html_framework_0; Val (str name); Lit html_framework_1;
      Val (str target); Lit html_framework_2; Val (str example);
      Lit html_framework_3].

(** The pieces of [html] when [_generate_html] returns it. *)
Definition html_frags `{Runtime} (message_map : dict) : result (list frag) :=
  let summary := dict_get message_map "executive_summary" (VDict []) in
  let generated := dict_get message_map "generated_at" (VStr "N/A") in
  top <- get summary "top_pain_point" (VStr "N/A") ;;
  dominant <- get summary "dominant_emotion" (VStr "N/A") ;;
  primary <- get summary "primary_desire" (VStr "N/A") ;;
  emotions <- get summary "total_emotional_patterns" (VInt 0) ;;
  pains <- get summary "total_pain_points" (VInt 0) ;;
  desires <- get summary "total_desire_triggers" (VInt 0) ;;
  let html :=
    [Lit html_page_0; Val (str generated);
     Lit html_page_1; Val (str top);
     Lit html_page_2; Val (str dominant);
     Lit html_page_3; Val (str primary);
     Lit html_page_4; Val (str emotions);
     Lit html_page_5; Val (str pains);
     Lit html_page_6; Val (str desires);
     Lit html_page_7] in
  insights <- iter (dict_get message_map "key_insights" (VList [])) ;;
  html <- extend insights
            (fun insight =>
               Ok [Lit html_insight_0; Val (str insight); Lit html_insight_1])
            html ;;
  let html := html +++ [Lit html_pain_points_0] in
  pain_points <- iter (dict_get message_map "pain_points" (VList [])) ;;
  html <- extend pain_points html_pain html ;;
  let html := html +++ [Lit html_hooks_0] in
  hooks <- items (dict_get message_map "ad_ready_hooks" (VDict [])) ;;
  html <- extend hooks html_hooks html ;;
  let html := html +++ [Lit html_frameworks_0] in
  frameworks <- iter (dict_get message_map "body_copy_frameworks" (VList [])) ;;
  html <- extend frameworks html_framework html ;;
  Ok (html +++ [Lit html_end_0]).

(** [_generate_html] *)
Definition _generate_html `{Runtime} (message_map : dict) : result string :=
  html <- html_frags message_map ;;
  Ok (String.concat "" (map frag_text html)).

End MessageMap.

(** ** The corpus builder (src/main.py, [analyze_data]) *)

Module Main.
Import Py.

(** [if key in item and item[key]: texts.append(item[key])] *)
Definition append_field (key : string) (item : dict) (texts : list value)
  : list value :=
  match lookup key item with
  | Some v => if truthy v then (texts +++ [v]) else texts
  | None => texts
  end.

(** [if isinstance(c, dict) and 'text' in c: texts.append(c['text'])] *)
Definition append_entry (texts : list value) (c : value) : list value :=
  match c with
  | VDict d =>
      match lookup "text" d with
      | Some t => (texts +++ [t])
      | None => texts
      end
  | _ => texts
  end.

(** [if key in item: for c in item[key]: ...] *)
Definition append_nested (key : string) (item : dict) (texts : list value)
  : result (list value) :=
  match lookup key item with
  | Some entries =>
      entries <- iter entries ;;
      for_each entries (fun texts c => Ok (append_entry texts c)) texts
  | None => Ok texts
  end.

(** The loop of [analyze_data] that fills [texts]. *)
Definition analyze_data_texts (data : list dict) : result (list value) :=
  for_each data
    (fun texts item =>
       let texts := append_field "text" item texts in
       let texts := append_field "title" item texts in
       texts <- append_nested "comments" item texts ;;
       append_nested "replies" item texts)
    [].

End Main.

(** ** A runtime for closed examples

    The decoder is [Json.loads].  [str], [title] and [json.dumps] are
    given on ASCII text and integers, which is what the examples
    interpolate, and two lists are not ordered; no statement below
    depends on what these return elsewhere. *)

Module Demo.
Import Py Runtime Analyzer.

Definition decimal (z : Z) : string := NilZero.string_of_int (Z.to_int z).

Definition str (v : value) : string :=
  match v with
  | VStr s => s
  | VInt z => decimal z
  | VBool true => "True"
  | VBool false => "False"
  | VNone => "None"
  | _ => ""
  end.

Definition exn_str (e : exn) : string :=
  match e with
  | LibraryError _ msg => msg
  | IndexError => "list index out of range"
  | _ => ""
  end.

Definition is_lower (c : ascii) : bool :=
  let n := N_of_ascii c in ((97 <=? n) && (n <=? 122))%N.
Definition is_upper (c : ascii) : bool :=
  let n := N_of_ascii c in ((65 <=? n) && (n <=? 90))%N.
Definition upper (c : ascii) : ascii :=
  if is_lower c then ascii_of_N (N_of_ascii c - 32) else c.
Definition lower (c : ascii) : ascii :=
  if is_upper c then ascii_of_N (N_of_ascii c + 32) else c.

(** [s.title()] on ASCII text: a letter is upper case after a character
    that is not a letter, lower case after a letter. *)
Fixpoint title_from (after_letter : bool) (s : string) : string :=
  match s with
  | EmptyString => EmptyString
  | String c s' =>
      String (if after_letter then lower c else upper c)
        (title_from (is_lower c || is_upper c) s')
  end.

Definition title (s : string) : string := title_from false s.

Definition dumps (v : value) : string :=
  match v with
  | VStr s => String Json.dq s ++ String Json.dq EmptyString
  | VInt z => decimal z
  | VBool true => "true"
  | VBool false => "false"
  | VNone => "null"
  | _ => ""
  end.

Definition python : Runtime :=
  {| json_loads := Json.loads;
     json_dumps := dumps;
     Runtime.str := str;
     Runtime.exn_str := exn_str;
     Runtime.title := title;
     seq_lt := fun _ _ => Raise TypeError |}.


(** A client that gives the same answer to every request. *)
Definition answering (answer : result message) : ClaudeAnalyzer :=
  {| client := fun _ _ => answer; model := "claude-sonnet-4-5-20250929" |}.

Definition says (text : string) : ClaudeAnalyzer :=
  answering (Ok {| msg_content := [TextBlock text] |}).

Definition fresh : world := {| calls := []; stdout := [] |}.

(** A report with one entry in every section. *)
Definition report : dict :=
  [("generated_at", VStr "2024-05-01T09:00:00");
   ("executive_summary",
    VDict [("top_pain_point", VStr "blisters"); ("dominant_emotion", VStr "hope");
           ("primary_desire", VStr "run longer");
           ("total_emotional_patterns", VInt 1); ("total_pain_points", VInt 1);
           ("total_desire_triggers", VInt 1)]);
   ("emotional_intelligence",
    VList [VDict [("emotion", VStr "hope"); ("frequency", VStr "high");
                  ("example_quotes", VList [VStr "finally a shoe that fits"])]]);
   ("pain_points",
    VList [VDict [("pain_point", VStr "blisters"); ("severity", VStr "high");
                  ("customer_quotes", VList [VStr "my heels bleed"])]]);
   ("awareness_stages",
    VDict [("problem_aware",
            VDict [("indicators", VList [VStr "why do my feet hurt"]);
                   ("quotes", VList [VStr "is this normal"])])]);
   ("ad_ready_hooks", VDict [("problem_aware", VList [VStr "Tired of blisters?"])]);
   ("body_copy_frameworks",
    VList [VDict [("framework_name", VStr "Problem-Agitate-Solution");
                  ("target_awareness", VStr "problem_aware");
                  ("example", VStr "Blisters again?")]]);
   ("call_to_actions", VList [VStr "Try them for 30 days"]);
   ("objection_handlers",
    VList [VDict [("objection", VStr "too pricey");
                  ("response", VStr "less than a physio visit")]]);
   ("key_insights", VList [VStr "fit matters more than price"])].

End Demo.

(** ** What the specification says, in its own words

    The definitions of this module follow the text of the specification,
    not the source; the theorems compare them with the code. *)

Module Spec.
Import Py Runtime MessageMap.

(** *** Corpus builder (4.1) *)

(** A text field that is present and not empty. *)
Definition text_field (key : string) (d : dict) : list value :=
  match lookup key d with
  | Some v => if truthy v then [v] else []
  | None => []
  end.

Definition same_text (a b : value) : bool :=
  match a, b with
  | VStr s, VStr t => s =? t
  | _, _ => false
  end.

(** "recursively the text of each nested comment and each nested reply,
    in document order": the text of an entry, then its own comments,
    then its own replies. *)
Fixpoint entry_texts (v : value) : list value :=
  match v with
  | VDict d =>
      let nested :=
        fix nested (key : string) (fields : list (string * value)) : list value :=
          match fields with
          | [] => []
          | (k, x) :: fields' =>
              if key =? k then
                match x with
                | VList l =>
                    (fix all (l : list value) : list value :=
                       match l with
                       | [] => []
                       | c :: l' => entry_texts c +++ all l'
                       end) l
                | _ => []
                end
              else nested key fields'
          end in
      text_field "text" d +++ nested "comments" d +++ nested "replies" d
  | _ => []
  end.

Definition nested_texts (key : string) (d : dict) : list value :=
  match lookup key d with
  | Some (VList l) => flat_map entry_texts l
  | _ => []
  end.

(** "the body text (if non-empty), the title (if non-empty and distinct
    from body), then recursively ..." *)
Definition record_texts (item : dict) : list value :=
  let body := text_field "text" item in
  let title :=
    filter (fun t => negb (existsb (same_text t) body)) (text_field "title" item) in
  body +++ title +++ nested_texts "comments" item +++ nested_texts "replies" item.

Definition corpus (data : list dict) : list value := flat_map record_texts data.

(** The amended extraction: a title is kept also when it repeats the
    body, and only the entries directly under [comments] and [replies]
    are read. *)
Definition entry_text (c : value) : list value :=
  match c with
  | VDict d => text_field "text" d
  | _ => []
  end.

Definition direct_texts (key : string) (item : dict) : list value :=
  match lookup key item with
  | Some (VList l) => flat_map entry_text l
  | _ => []
  end.

Definition record_texts_flat (item : dict) : list value :=
  text_field "text" item +++ text_field "title" item
  +++ direct_texts "comments" item +++ direct_texts "replies" item.

Definition corpus_flat (data : list dict) : list value :=
  flat_map record_texts_flat data.

(** The records the amended statement is about: [comments] and
    [replies], when present, can be iterated, and no entry under them
    has an empty text. *)
Definition entry_ok (c : value) : bool :=
  match c with
  | VDict d =>
      match lookup "text" d with
      | Some t => truthy t
      | None => true
      end
  | _ => true
  end.

Definition nested_ok (key : string) (item : dict) : bool :=
  match lookup key item with
  | Some (VList l) => forallb entry_ok l
  | Some (VStr _) | Some (VDict _) => true
  | Some _ => false
  | None => true
  end.

Definition record_ok (item : dict) : bool :=
  nested_ok "comments" item && nested_ok "replies" item.

(** *** Date range (4.3) *)

(** "whichever timestamp field is present on each record (first of three
    possible field names, in fixed priority order)" *)
Definition timestamp (item : dict) : option value :=
  match lookup "created_utc" item with
  | Some v => Some v
  | None =>
      match lookup "published_at" item with
      | Some v => Some v
      | None => lookup "date" item
      end
  end.

Definition timestamps (raw_data : list dict) : list value :=
  flat_map (fun item => match timestamp item with
                        | Some v => [v]
                        | None => []
                        end) raw_data.

(** The lexicographic minimum and maximum of a non-empty list of texts. *)
Definition least (first : string) (rest : list string) : string :=
  fold_left (fun m x => if String.ltb x m then x else m) rest first.

Definition greatest (first : string) (rest : list string) : string :=
  fold_left (fun m x => if String.ltb m x then x else m) rest first.

Definition texts_of (l : list value) : list string :=
  flat_map (fun v => match v with VStr s => [s] | _ => [] end) l.

Definition range_of (texts : list string) : value :=
  match texts with
  | first :: rest =>
      VDict [("earliest", VStr (least first rest));
             ("latest", VStr (greatest first rest))]
  | [] => VDict [("earliest", VStr "N/A"); ("latest", VStr "N/A")]
  end.

Definition date_range (raw_data : list dict) : value :=
  range_of (texts_of (timestamps raw_data)).

(** The amended choice: the first of the three fields that is present
    with a value that is not empty. *)
Definition filled (key : string) (item : dict) : option value :=
  match lookup key item with
  | Some v => if truthy v then Some v else None
  | None => None
  end.

Definition filled_timestamp (item : dict) : option value :=
  match filled "created_utc" item with
  | Some v => Some v
  | None =>
      match filled "published_at" item with
      | Some v => Some v
      | None => filled "date" item
      end
  end.

Definition filled_timestamps (raw_data : list dict) : list value :=
  flat_map (fun item => match filled_timestamp item with
                        | Some v => [v]
                        | None => []
                        end) raw_data.

Definition is_text (v : value) : bool :=
  match v with VStr _ => true | _ => false end.

(** *** Executive summary (4.3) *)

(** "first element of the sequence, or a sentinel N/A if empty": the
    field [key] of the first entry. *)
Definition headline (key : string) (entries : list value) : option value :=
  match entries with
  | [] => Some (VStr "N/A")
  | VDict d :: _ => lookup key d
  | _ :: _ => None
  end.

(** *** Section headers of the two encodings (4.4) *)

Definition drop (n : nat) (s : string) : string :=
  String.substring n (String.length s - n) s.

(** Without a line feed at the end. *)
Fixpoint chomp (s : string) : string :=
  match s with
  | EmptyString => EmptyString
  | String c EmptyString =>
      if Ascii.eqb c (ascii_of_nat 10) then EmptyString else s
  | String c s' => String c (chomp s')
  end.

(** The header that an entry of the list [md] is, if it is one: the text
    after [## ].  The entries are what the renderer appends; a value
    interpolated into an entry is content, whatever it holds. *)
Definition md_header (line : string) : list string :=
  if String.prefix "## " line then [chomp (drop 3 line)] else [].

Definition md_headers (md : list string) : list string :=
  flat_map md_header md.

(** The text up to [</h2>]. *)
Fixpoint until_close (s : string) : option string :=
  match s with
  | EmptyString => None
  | String c s' =>
      if String.prefix "</h2>" s then Some EmptyString
      else match until_close s' with
           | Some t => Some (String c t)
           | None => None
           end
  end.

(** The headers [<h2>...</h2>] of a piece of template text. *)
Fixpoint h2_titles (s : string) : list string :=
  match s with
  | EmptyString => []
  | String c s' =>
      if String.prefix "<h2>" s then
        match until_close (drop 4 s) with
        | Some t => t :: h2_titles s'
        | None => h2_titles s'
        end
      else h2_titles s'
  end.

(** The headers of the styled encoding are those its templates write;
    an interpolated value is content, whatever it holds. *)
Definition html_header (f : frag) : list string :=
  match f with
  | Lit s => h2_titles s
  | Val _ => []
  end.

Definition html_headers (html : list frag) : list string :=
  flat_map html_header html.

(** The section order of 4.4. *)
Definition prose_sections : list string :=
  ["Executive Summary"; "Key Insights"; "Pain Points"; "Emotional Patterns";
   "Customer Awareness Stages"; "Ad-Ready Hooks"; "Body Copy Frameworks";
   "Call to Action Suggestions"; "Objection Handlers"].

Definition styled_sections : list string :=
  ["Executive Summary"; "Key Insights"; "Pain Points"; "Ad-Ready Hooks";
   "Body Copy Frameworks"].

(** The sections that only the prose encoding renders. *)
Definition prose_only_sections : list string :=
  ["Emotional Patterns"; "Customer Awareness Stages";
   "Call to Action Suggestions"; "Objection Handlers"].

Definition without (omitted : list string) (headers : list string) : list string :=
  filter (fun h => negb (existsb (String.eqb h) omitted)) headers.

End Spec.

(** ** Shapes of results *)

Module Shapes.
Import Py Analyzer.

(** A result of the categorization pass that has buckets: the five stage
    keys in their order, each with a list whose items are items of
    [data]. *)
Definition bucketed (data : list dict) (d : dict) : Prop :=
  map fst d = stage_keys /\
  forall k v, In (k, v) d ->
    exists xs, v = VList xs /\
      forall x, In x xs -> exists item, In item data /\ x = VDict item.

(** The [source] tag of a record, ["unknown"] when it has none. *)
Definition tag (item : dict) : value := dict_get item "source" (VStr "unknown").

Definition tags (raw_data : list dict) : list string :=
  Spec.texts_of (map tag raw_data).

(** A value that is no container: [None], a boolean or a number. *)
Definition is_scalar (v : value) : bool :=
  match v with
  | VNone | VBool _ | VInt _ | VFloat _ => true
  | _ => false
  end.

(** The keys the merge reads from the result of each pass, and the three
    whose sequences the summary reads. *)
Definition analysis_keys : list string :=
  ["emotional_patterns"; "pain_points"; "desire_triggers";
   "awareness_stages"; "language_patterns"; "key_insights"].

Definition framework_keys : list string :=
  ["hooks"; "body_copy_frameworks"; "headline_formulas";
   "call_to_action_suggestions"; "objection_handlers"].

Definition summarised_keys : list string :=
  ["pain_points"; "emotional_patterns"; "desire_triggers"].

(** The keys of the report, in the order of the dict that
    [generate_message_map] builds. *)
Definition report_keys : list string :=
  ["generated_at"; "metadata"; "executive_summary"; "emotional_intelligence";
   "pain_points"; "desire_triggers"; "awareness_stages"; "language_patterns";
   "ad_ready_hooks"; "body_copy_frameworks"; "headline_formulas";
   "call_to_actions"; "objection_handlers"; "key_insights"; "raw_data_summary"].

(** The fields it copies: the key in the report, the key in the result
    of the pass, and the default. *)
Definition analysis_fields : list (string * string * value) :=
  [("emotional_intelligence", "emotional_patterns", VList []);
   ("pain_points", "pain_points", VList []);
   ("desire_triggers", "desire_triggers", VList []);
   ("awareness_stages", "awareness_stages", VDict []);
   ("language_patterns", "language_patterns", VDict []);
   ("key_insights", "key_insights", VList [])].

Definition framework_fields : list (string * string * value) :=
  [("ad_ready_hooks", "hooks", VDict []);
   ("body_copy_frameworks", "body_copy_frameworks", VList []);
   ("headline_formulas", "headline_formulas", VList []);
   ("call_to_actions", "call_to_action_suggestions", VList []);
   ("objection_handlers", "objection_handlers", VList [])].

(** An [int], a [bool] or a [float]. *)
Definition is_number (v : value) : bool :=
  match as_num v with Some _ => true | None => false end.

(** The fields of the report that each renderer reads. *)
Definition prose_keys : list string :=
  ["generated_at"; "executive_summary"; "key_insights"; "pain_points";
   "emotional_intelligence"; "awareness_stages"; "ad_ready_hooks";
   "body_copy_frameworks"; "call_to_actions"; "objection_handlers"].

Definition styled_keys : list string :=
  ["executive_summary"; "generated_at"; "key_insights"; "pain_points";
   "ad_ready_hooks"; "body_copy_frameworks"].

End Shapes.

(** ** The run (src/main.py, [analyze_data], [generate_output])

    What these functions write on the console is left out; the
    connectors have delivered [data], the configuration and the
    arguments of the command line are given. *)

Module Pipeline.
Import Py Runtime Analyzer MessageMap Main.

(** [sep.join(l)] takes strings only. *)
Fixpoint strings (l : list value) : result (list string) :=
  match l with
  | [] => Ok []
  | VStr s :: l' => ss <- strings l' ;; Ok (s :: ss)
  | _ :: _ => Raise TypeError
  end.

(** [analyze_data]: the corpus, then the two passes.  [analyze_batch]
    joins [texts[:100]] before its [try], so what is not a string among
    them raises there. *)
Definition analyze_data `{Runtime} (self : ClaudeAnalyzer) (data : list dict)
  (max_tokens : Z) (context : string) (w : world)
  : result (value * value) * world :=
  match (texts <- analyze_data_texts data ;; strings (firstn 100 texts)) with
  | Raise e => (Raise e, w)
  | Ok sample =>
      let '(analysis, w1) := analyze_batch self sample context max_tokens w in
      match analysis with
      | Raise e => (Raise e, w1)
      | Ok analysis =>
          let '(ad_framework, w2) :=
            generate_ad_copy_framework self analysis 3000 w1 in
          (ad_framework <- ad_framework ;; Ok (analysis, ad_framework), w2)
      end
  end.

(** The [metadata] of [generate_output]. *)
Definition metadata_of (query context : string) (reddit amazon youtube : bool)
  : dict :=
  [("query", VStr query);
   ("context", VStr context);
   ("sources", VDict [("reddit", VBool reddit);
                      ("amazon", VBool amazon);
                      ("youtube", VBool youtube)])].

(** [generate_message_map] on the results as the passes return them:
    [analysis.get] and [ad_framework.get] need a dict; the summary is
    made before [ad_framework] is read. *)
Definition message_map_of `{Runtime} (now : string)
  (analysis ad_framework : value) (raw_data : option (list dict))
  (metadata : option dict) : result value :=
  match analysis with
  | VDict a =>
      match ad_framework with
      | VDict f => generate_message_map now a f raw_data metadata
      | _ => _ <- _generate_summary a ;; Raise AttributeError
      end
  | _ => Raise AttributeError
  end.

(** [main] from the scraped data to the message map that
    [generate_output] builds: it leaves with [sys.exit(1)] when nothing
    was scraped, then come [analyze_data] and the merge. *)
Definition main_message_map `{Runtime} (self : ClaudeAnalyzer) (now : string)
  (data : list dict) (max_tokens : Z) (context : string)
  (include_raw_data : bool) (metadata : dict) (w : world)
  : result value * world :=
  match data with
  | [] => (Raise (LibraryError "SystemExit" "1"), w)
  | _ :: _ =>
      let '(r, w1) := analyze_data self data max_tokens context w in
      match r with
      | Ok (analysis, ad_framework) =>
          (message_map_of now analysis ad_framework
             (if include_raw_data then Some data else None) (Some metadata),
           w1)
      | Raise e => (Raise e, w1)
      end
  end.

(** [needle in s] for two strings *)
Fixpoint occurs (needle s : string) : bool :=
  if String.prefix needle s then true
  else match s with
       | EmptyString => false
       | String _ s' => occurs needle s'
       end.

(** [name in output_format]: a substring of a string, an element of a
    list, a key of a dict. *)
Definition format_has (name : string) (output_format : value) : result bool :=
  match output_format with
  | VStr s => Ok (occurs name s)
  | VList l =>
      Ok (existsb (fun v => match v with
                            | VStr t => name =? t
                            | _ => false
                            end) l)
  | VDict d => Ok (has_key name d)
  | _ => Raise TypeError
  end.

(** The savers [generate_output] calls, by the name of their format and
    in the order of the calls, when none of them raises; [args_format]
    is [args.format], [config_format] is [config['output']['format']]. *)
Definition selected_formats (args_format config_format : value)
  : result (list string) :=
  let output_format := py_or args_format config_format in
  json <- format_has "json" output_format ;;
  let files_saved := if json then ["json"] else [] in
  markdown <- format_has "markdown" output_format ;;
  let files_saved := if markdown then files_saved +++ ["markdown"] else files_saved in
  html <- format_has "html" output_format ;;
  let files_saved := if html then files_saved +++ ["html"] else files_saved in
  Ok files_saved.

(** The choices of [--format]. *)
Definition format_choices : list string := ["json"; "markdown"; "html"; "all"].

End Pipeline.

(** * Properties *)

(** ** The values and the decoder on examples *)

Module Sanity.
Import Py Json.

Example loads_object :
  loads (Runtime.tpl "{`a`: [1, -2, true, null], `b`: {`c`: `d\n`}, `a`: 3}")
  = Ok (VDict [("a", VInt 3);
               ("b", VDict [("c", VStr ("d" ++ Runtime.nl))])]).
Proof. vm_compute. reflexivity. Qed.

Example loads_float :
  loads "[0.1, 1e400, -0.0, 2.5e-324]"
  = Ok (VList [VFloat (S754_finite false 7205759403792794 (-56));
               VFloat (S754_infinity false);
               VFloat (S754_zero true);
               VFloat (S754_finite false 1 (-1074))]).
Proof. vm_compute. reflexivity. Qed.

Example loads_rejects :
  map loads ["not json"; ""; "[1,]"; "{1: 2}"; "[1] x"; "01"; "nul"]
  = repeat (Raise JSONDecodeError) 7.
Proof. vm_compute. reflexivity. Qed.

Example truth_values :
  map truthy [VNone; VInt 0; VStr ""; VList []; VDict []; VFloat (S754_zero true);
              VStr "0"; VInt (-1); VFloat S754_nan; VList [VNone]]
  = [false; false; false; false; false; false; true; true; true; true].
Proof. reflexivity. Qed.

Example negative_index :
  list_index [VInt 10; VInt 20; VInt 30] (-1) = Ok (VInt 30) /\
  list_index [VInt 10; VInt 20; VInt 30] (-3) = Ok (VInt 10) /\
  list_index [VInt 10; VInt 20; VInt 30] (-4) = Raise IndexError /\
  list_index [VInt 10; VInt 20; VInt 30] 3 = Raise IndexError.
Proof. repeat split. Qed.

Example order_of_numbers_and_texts :
  lt_with (fun _ _ => Raise TypeError) (VInt 7) (VInt 5) = Ok false /\
  lt_with (fun _ _ => Raise TypeError) (VInt (-1)) (VInt 5) = Ok true /\
  lt_with (fun _ _ => Raise TypeError) (VInt 4)
    (VFloat (S754_finite false 9 (-1))) = Ok true /\
  lt_with (fun _ _ => Raise TypeError) (VStr "2023-12-31") (VStr "2024-01-01")
    = Ok true /\
  lt_with (fun _ _ => Raise TypeError) (VStr "7") (VInt 5) = Raise TypeError.
Proof. repeat split. Qed.

End Sanity.

(** ** The passes of the orchestrator *)

Module Passes.
Import Py Runtime Analyzer.

Section WithRuntime.
Context `{rt : Runtime}.
Variable self : ClaudeAnalyzer.

Lemma analyze_batch_unfold texts context max_tokens w :
  analyze_batch self texts context max_tokens w =
  let req := analysis_request self texts context max_tokens in
  match (message <- client self (calls w) req ;;
         response_text <- first_text message ;;
         loads_or_wrap "raw_analysis" response_text) with
  | Ok analysis => (Ok analysis, sent req w)
  | Raise e =>
      (Ok (VDict [("error", VStr (exn_str e))]),
       print ("Error during Claude analysis: " ++ exn_str e) (sent req w))
  end.
Proof. reflexivity. Qed.

Lemma generate_ad_copy_framework_unfold analysis max_tokens w :
  generate_ad_copy_framework self analysis max_tokens w =
  let req := framework_request self analysis max_tokens in
  match (message <- client self (calls w) req ;;
         response_text <- first_text message ;;
         loads_or_wrap "raw_framework" response_text) with
  | Ok ad_framework => (Ok ad_framework, sent req w)
  | Raise e =>
      (Ok (VDict [("error", VStr (exn_str e))]),
       print ("Error generating ad copy framework: " ++ exn_str e) (sent req w))
  end.
Proof. reflexivity. Qed.

Lemma categorize_by_awareness_unfold data text_field w :
  categorize_by_awareness self data text_field w =
  if negb (truthy (VList (sample_texts data text_field))) then (Ok (VDict []), w)
  else
    let req := categorize_request self data text_field in
    match (message <- client self (calls w) req ;;
           response_text <- first_text message ;;
           organize data response_text) with
    | Ok categorized => (Ok categorized, sent req w)
    | Raise e =>
        (Ok (VDict []),
         print ("Error categorizing by awareness: " ++ exn_str e) (sent req w))
    end.
Proof. reflexivity. Qed.

(** A pass returns a value whatever the client and the decoder do. *)
Lemma analyze_batch_returns texts context max_tokens w :
  exists v, fst (analyze_batch self texts context max_tokens w) = Ok v.
Proof.
  rewrite analyze_batch_unfold; cbv zeta.
  destruct (bind _ _); simpl; eauto.
Qed.

Lemma generate_ad_copy_framework_returns analysis max_tokens w :
  exists v, fst (generate_ad_copy_framework self analysis max_tokens w) = Ok v.
Proof.
  rewrite generate_ad_copy_framework_unfold; cbv zeta.
  destruct (bind _ _); simpl; eauto.
Qed.

(** A pass sends one request, whatever comes back. *)
Lemma analyze_batch_calls texts context max_tokens w :
  calls (snd (analyze_batch self texts context max_tokens w)) =
  calls w +++ [analysis_request self texts context max_tokens].
Proof.
  rewrite analyze_batch_unfold; cbv zeta.
  destruct (bind _ _); reflexivity.
Qed.

Lemma generate_ad_copy_framework_calls analysis max_tokens w :
  calls (snd (generate_ad_copy_framework self analysis max_tokens w)) =
  calls w +++ [framework_request self analysis max_tokens].
Proof.
  rewrite generate_ad_copy_framework_unfold; cbv zeta.
  destruct (bind _ _); reflexivity.
Qed.

End WithRuntime.




(** *** Truncation of the prompt *)

Lemma firstn_absorbs {A} (n : nat) (l others : list A) :
  (n <= length l)%nat ->
  firstn n (firstn n l +++ others) = firstn n l.
Proof.
  intros Hn. rewrite firstn_app, firstn_firstn, Nat.min_id.
  rewrite length_firstn, (Nat.min_l _ _ Hn), Nat.sub_diag.
  simpl. apply app_nil_r.
Qed.

Lemma prompt_of_first_hundred (texts : list string) (context : string) :
  _build_analysis_prompt (firstn 100 texts) context =
  _build_analysis_prompt texts context.
Proof.
  unfold _build_analysis_prompt. now rewrite firstn_firstn.
Qed.

(** C8.  Of more than 100 text units, the prompt holds the first 100, in
    their order, joined by the separator; the units after them change
    neither the prompt nor the request that is sent. *)
Theorem prompt_holds_first_hundred `{rt : Runtime} (self : ClaudeAnalyzer)
  (texts : list string) (context : string) (max_tokens : Z) (w : world) :
  (100 < length texts)%nat ->
  length (firstn 100 texts) = 100%nat /\
  _build_analysis_prompt texts context =
    analysis_prompt_head
    ++ (if negb (context =? "") then "PRODUCT/CATEGORY CONTEXT: " ++ context
        else "")
    ++ analysis_prompt_samples
    ++ String.concat separator (firstn 100 texts)
    ++ analysis_prompt_schema /\
  (forall others,
     _build_analysis_prompt (firstn 100 texts +++ others) context =
     _build_analysis_prompt texts context) /\
  calls (snd (analyze_batch self texts context max_tokens w)) =
    calls w +++ [analysis_request self (firstn 100 texts) context max_tokens].
Proof.
  intros Hlen. repeat split.
  - rewrite length_firstn. apply Nat.min_l. lia.
  - intros others. unfold _build_analysis_prompt.
    rewrite firstn_absorbs by lia. reflexivity.
  - rewrite analyze_batch_calls. unfold analysis_request.
    now rewrite prompt_of_first_hundred.
Qed.

Lemma prompt_holds_first_hundred_witness :
  let texts := repeat "kept" 100 +++ ["dropped"] in
  _build_analysis_prompt texts "shoes" =
  _build_analysis_prompt (repeat "kept" 100) "shoes".
Proof.
  intros texts.
  destruct (@prompt_holds_first_hundred Demo.python (Demo.says "{}") texts
              "shoes" 4000 Demo.fresh) as (_ & _ & Hdrop & _).
  - unfold texts. rewrite length_app, repeat_length. simpl. lia.
  - rewrite <- (Hdrop []). unfold texts.
    rewrite firstn_app, repeat_length, Nat.sub_diag.
    rewrite firstn_all2 by (rewrite repeat_length; lia).
    reflexivity.
Defined.

(** *** Failures of the LLM call *)

(** C9.  When the client raises during the call of the pattern pass or of
    the ad-framework pass, the pass returns [{error: str(e)}]; it has
    sent that one request and no other. *)
Theorem llm_failure_is_returned `{rt : Runtime} (self : ClaudeAnalyzer)
  (w : world) (e : exn) :
  (forall texts context max_tokens,
     let req := analysis_request self texts context max_tokens in
     client self (calls w) req = Raise e ->
     analyze_batch self texts context max_tokens w =
     (Ok (VDict [("error", VStr (exn_str e))]),
      print ("Error during Claude analysis: " ++ exn_str e) (sent req w)) /\
     calls (snd (analyze_batch self texts context max_tokens w)) =
     calls w +++ [req]) /\
  (forall analysis max_tokens,
     let req := framework_request self analysis max_tokens in
     client self (calls w) req = Raise e ->
     generate_ad_copy_framework self analysis max_tokens w =
     (Ok (VDict [("error", VStr (exn_str e))]),
      print ("Error generating ad copy framework: " ++ exn_str e) (sent req w)) /\
     calls (snd (generate_ad_copy_framework self analysis max_tokens w)) =
     calls w +++ [req]).
Proof.
  split.
  - intros texts context max_tokens req Hc. split.
    + rewrite analyze_batch_unfold; cbv zeta; fold req. now rewrite Hc.
    + apply analyze_batch_calls.
  - intros analysis max_tokens req Hc. split.
    + rewrite generate_ad_copy_framework_unfold; cbv zeta; fold req.
      now rewrite Hc.
    + apply generate_ad_copy_framework_calls.
Qed.

Lemma llm_failure_is_returned_witness :
  let timeout := LibraryError "APITimeoutError" "Request timed out." in
  let self := Demo.answering (Raise timeout) in
  fst (@analyze_batch Demo.python self ["a"] "" 4000 Demo.fresh)
    = Ok (VDict [("error", VStr "Request timed out.")]) /\
  length (calls (snd (@analyze_batch Demo.python self ["a"] "" 4000 Demo.fresh)))
    = 1%nat /\
  fst (@generate_ad_copy_framework Demo.python self (VDict []) 3000 Demo.fresh)
    = Ok (VDict [("error", VStr "Request timed out.")]) /\
  length (calls (snd (@generate_ad_copy_framework Demo.python self (VDict []) 3000
                        Demo.fresh)))
    = 1%nat.
Proof.
  intros timeout self.
  destruct (@llm_failure_is_returned Demo.python self Demo.fresh timeout)
    as [Ha Hf].
  destruct (Ha ["a"] "" 4000%Z eq_refl) as [Ha1 Ha2].
  destruct (Hf (VDict []) 3000%Z eq_refl) as [Hf1 Hf2].
  rewrite Ha2, Hf2, Ha1, Hf1. repeat split.
Defined.

(** *** The categorization pass *)

Lemma sample_texts_none (data : list dict) (text_field : string) :
  (forall item, In item data -> has_key text_field item = false) ->
  sample_texts data text_field = [].
Proof.
  unfold sample_texts, has_key. intros Hnone.
  replace (flat_map _ data) with (@nil value); [reflexivity|].
  induction data as [|item data IH]; simpl; [reflexivity|].
  specialize (Hnone item (or_introl eq_refl)) as Hitem.
  destruct (lookup text_field item); [discriminate|].
  apply IH. intros item' Hin. apply Hnone. now right.
Qed.

(** C10.  [categorize_by_awareness] returns the empty dict, which has none
    of the five stage keys, when no item has the text field, when the
    client raises, and when the response does not decode. *)
Theorem categorize_returns_empty_dict `{rt : Runtime} (self : ClaudeAnalyzer)
  (data : list dict) (text_field : string) (w : world) :
  let req := categorize_request self data text_field in
  ((forall item, In item data -> has_key text_field item = false) ->
   categorize_by_awareness self data text_field w = (Ok (VDict []), w)) /\
  (forall e, client self (calls w) req = Raise e ->
   fst (categorize_by_awareness self data text_field w) = Ok (VDict [])) /\
  (forall m t e, client self (calls w) req = Ok m ->
   first_text m = Ok t ->
   json_loads t = Raise e ->
   fst (categorize_by_awareness self data text_field w) = Ok (VDict [])).
Proof.
  intros req. repeat split.
  - intros Hnone.
    rewrite categorize_by_awareness_unfold, (sample_texts_none _ _ Hnone).
    reflexivity.
  - intros e Hc. rewrite categorize_by_awareness_unfold; cbv zeta; fold req.
    destruct (negb _); [reflexivity|]. now rewrite Hc.
  - intros m t e Hc Ht Hj.
    rewrite categorize_by_awareness_unfold; cbv zeta; fold req.
    destruct (negb _); [reflexivity|].
    rewrite Hc; simpl. rewrite Ht; simpl. unfold organize. now rewrite Hj.
Qed.

Lemma categorize_returns_empty_dict_witness :
  let data := [[("text", VStr "too pricey")]] in
  @categorize_by_awareness Demo.python (Demo.says "{}") [[("title", VStr "t")]]
    "text" Demo.fresh = (Ok (VDict []), Demo.fresh) /\
  fst (@categorize_by_awareness Demo.python
         (Demo.answering (Raise (LibraryError "RateLimitError" "429")))
         data "text" Demo.fresh) = Ok (VDict []) /\
  fst (@categorize_by_awareness Demo.python (Demo.says "not json") data "text"
         Demo.fresh) = Ok (VDict []).
Proof.
  intros data. split; [|split].
  - apply (@categorize_returns_empty_dict Demo.python (Demo.says "{}")
             [[("title", VStr "t")]] "text" Demo.fresh).
    intros item [<- | []]. reflexivity.
  - apply (@categorize_returns_empty_dict Demo.python
             (Demo.answering (Raise (LibraryError "RateLimitError" "429")))
             data "text" Demo.fresh) with (e := LibraryError "RateLimitError" "429").
    reflexivity.
  - apply (@categorize_returns_empty_dict Demo.python (Demo.says "not json")
             data "text" Demo.fresh)
      with (m := {| msg_content := [TextBlock "not json"] |}) (t := "not json")
           (e := JSONDecodeError); reflexivity.
Defined.

(** What the guard [idx < len(data) and stage in categorized] does drop:
    an integer index at or beyond the end, and a label that is a text but
    not a stage key. *)
Lemma bucket_drops_index_beyond_end `{rt : Runtime} (data : list dict)
  (categorized : dict) (item stage : value) (i : Z) :
  getitem item (VStr "text_index") = Ok (VInt i) ->
  getitem item (VStr "stage") = Ok stage ->
  (Z.of_nat (length data) <= i)%Z ->
  bucket data categorized item = Ok categorized.
Proof.
  intros Hi Hs Hge. unfold bucket. rewrite Hi, Hs. simpl.
  destruct (Z.ltb_spec (i * 1) (Z.of_nat (length data) * 1)) as [Hlt|_];
    [lia | reflexivity].
Qed.

Lemma bucket_drops_unknown_stage `{rt : Runtime} (data : list dict)
  (categorized : dict) (item : value) (i : Z) (label : string) :
  getitem item (VStr "text_index") = Ok (VInt i) ->
  getitem item (VStr "stage") = Ok (VStr label) ->
  has_key label categorized = false ->
  bucket data categorized item = Ok categorized.
Proof.
  intros Hi Hs Hk. unfold bucket. rewrite Hi, Hs. simpl.
  destruct (_ <? _)%Z; [|reflexivity].
  simpl. now rewrite Hk.
Qed.

(** What it does not drop: a negative index that is not below
    [-len(data)] selects the item that far from the end. *)
Lemma bucket_takes_negative_index `{rt : Runtime} (data : list dict)
  (categorized : dict) (item : value) (i : Z) (label : string)
  (xs : list value) (x : dict) :
  getitem item (VStr "text_index") = Ok (VInt i) ->
  getitem item (VStr "stage") = Ok (VStr label) ->
  lookup label categorized = Some (VList xs) ->
  (- Z.of_nat (length data) <= i < 0)%Z ->
  nth_error data (Z.to_nat (i + Z.of_nat (length data))) = Some x ->
  bucket data categorized item =
  Ok (dict_set categorized label (VList (xs +++ [VDict x]))).
Proof.
  intros Hi Hs Hl Hrange Hx. unfold bucket. rewrite Hi, Hs. simpl.
  destruct (Z.ltb_spec (i * 1) (Z.of_nat (length data) * 1)) as [_|Hge];
    [|lia].
  unfold has_key. rewrite Hl. simpl.
  unfold list_index. rewrite length_map. unfold dict in *. cbv zeta.
  destruct (Z.ltb_spec i 0) as [_|Hge]; [|lia]. cbv iota.
  assert (((i + Z.of_nat (length data) <? 0)
           || (Z.of_nat (length data) <=? i + Z.of_nat (length data)))%Z
          = false) as ->
    by (apply orb_false_iff; split; [apply Z.ltb_ge | apply Z.leb_gt]; lia).
  rewrite nth_error_map, Hx. simpl.
  unfold append_at. simpl. now rewrite Hl.
Qed.

(** C3 fails on the code.  A negative [text_index] passes the guard
    [idx < len(data)] and selects an item from the end; an index is
    checked against all of [data], not against the items that were sent;
    an index below [-len(data)] loses every assignment of the response. *)
Theorem categorize_buckets_out_of_range_index :
  let two := [[("text", VStr "first")]; [("text", VStr "last")]] in
  let eight :=
    map (fun t => [("text", VStr t)]) ["a"; "b"; "c"; "d"; "e"]
    +++ map (fun t => [("title", VStr t)]) ["f"; "g"; "h"] in
  fst (@categorize_by_awareness Demo.python
         (Demo.says (tpl "{`categorized`: [{`text_index`: -1, `stage`: `unaware`}]}"))
         two "text" Demo.fresh)
  = Ok (VDict [("unaware", VList [VDict [("text", VStr "last")]]);
               ("problem_aware", VList []); ("solution_aware", VList []);
               ("product_aware", VList []); ("most_aware", VList [])]) /\
  (length (sample_texts eight "text") = 5%nat /\
   fst (@categorize_by_awareness Demo.python
          (Demo.says (tpl "{`categorized`: [{`text_index`: 7, `stage`: `most_aware`}]}"))
          eight "text" Demo.fresh)
   = Ok (VDict [("unaware", VList []); ("problem_aware", VList []);
                ("solution_aware", VList []); ("product_aware", VList []);
                ("most_aware", VList [VDict [("title", VStr "h")]])])) /\
  fst (@categorize_by_awareness Demo.python
         (Demo.says (tpl "{`categorized`: [{`text_index`: 0, `stage`: `unaware`}, {`text_index`: -3, `stage`: `unaware`}]}"))
         two "text" Demo.fresh)
  = Ok (VDict []).
Proof.
  cbv zeta. split; [|split; [split|]]; vm_compute; reflexivity.
Qed.

End Passes.

(** ** The report assembler *)

Module Assembly.
Import Py Runtime MessageMap Spec.

Lemma first_field_headline (key : string) (entries : list value) (v : value) :
  headline key entries = Some v ->
  first_field (VList entries) key = Ok v.
Proof.
  unfold first_field, headline.
  destruct entries as [|[| | | | |l|d] rest]; simpl; try discriminate.
  - now intros [= <-].
  - intros Hl. unfold list_index. simpl. now rewrite Hl.
Qed.

(** C6.  The summary holds the field of the first pain point, of the
    first emotional pattern and of the first desire trigger, each ["N/A"]
    when its sequence is empty, and the lengths of the three sequences. *)
Theorem summary_of_first_entries (analysis : dict)
  (pains emotions desires : list value) (top dominant primary : value) :
  dict_get analysis "pain_points" (VList []) = VList pains ->
  dict_get analysis "emotional_patterns" (VList []) = VList emotions ->
  dict_get analysis "desire_triggers" (VList []) = VList desires ->
  headline "pain_point" pains = Some top ->
  headline "emotion" emotions = Some dominant ->
  headline "desire" desires = Some primary ->
  _generate_summary analysis =
  Ok (VDict [("top_pain_point", top);
             ("dominant_emotion", dominant);
             ("primary_desire", primary);
             ("total_emotional_patterns", VInt (Z.of_nat (length emotions)));
             ("total_pain_points", VInt (Z.of_nat (length pains)));
             ("total_desire_triggers", VInt (Z.of_nat (length desires)))]).
Proof.
  intros Hp He Hd Htop Hdom Hprim. unfold _generate_summary.
  rewrite Hp, He, Hd.
  rewrite (first_field_headline _ _ _ Htop), (first_field_headline _ _ _ Hdom),
    (first_field_headline _ _ _ Hprim).
  reflexivity.
Qed.

Lemma summary_of_first_entries_witness :
  _generate_summary
    [("pain_points", VList [VDict [("pain_point", VStr "A")];
                            VDict [("pain_point", VStr "B")]]);
     ("emotional_patterns", VList []);
     ("desire_triggers", VList [VDict [("desire", VStr "X")]])] =
  Ok (VDict [("top_pain_point", VStr "A");
             ("dominant_emotion", VStr "N/A");
             ("primary_desire", VStr "X");
             ("total_emotional_patterns", VInt 0);
             ("total_pain_points", VInt 2);
             ("total_desire_triggers", VInt 1)]).
Proof.
  apply (summary_of_first_entries _
           [VDict [("pain_point", VStr "A")]; VDict [("pain_point", VStr "B")]]
           [] [VDict [("desire", VStr "X")]]); reflexivity.
Defined.

(** What the merge does with keys that are missing at the top level:
    every field is an empty container, the summary holds the sentinels. *)
Lemma merge_of_empty_inputs `{rt : Runtime} (now : string) :
  generate_message_map now [] [] None None =
  Ok (VDict
    [("generated_at", VStr now);
     ("metadata", VDict []);
     ("executive_summary",
      VDict [("top_pain_point", VStr "N/A");
             ("dominant_emotion", VStr "N/A");
             ("primary_desire", VStr "N/A");
             ("total_emotional_patterns", VInt 0);
             ("total_pain_points", VInt 0);
             ("total_desire_triggers", VInt 0)]);
     ("emotional_intelligence", VList []);
     ("pain_points", VList []);
     ("desire_triggers", VList []);
     ("awareness_stages", VDict []);
     ("language_patterns", VDict []);
     ("ad_ready_hooks", VDict []);
     ("body_copy_frameworks", VList []);
     ("headline_formulas", VList []);
     ("call_to_actions", VList []);
     ("objection_handlers", VList []);
     ("key_insights", VList []);
     ("raw_data_summary", VNone)]).
Proof. reflexivity. Qed.

(** C4 fails on the code.  A pain point without its [pain_point] field
    makes [_generate_summary], and with it the merge, raise [KeyError],
    whatever the other arguments are. *)
Theorem merge_raises_on_missing_nested_key `{rt : Runtime} (now : string)
  (ad_framework : dict) (raw_data : option (list dict)) (metadata : option dict) :
  generate_message_map now
    [("pain_points", VList [VDict [("severity", VStr "major")]])]
    ad_framework raw_data metadata
  = Raise (KeyError (VStr "pain_point")).
Proof. reflexivity. Qed.

(** *** The date range *)

(** The order of texts. *)
Lemma ascii_compare_lt_trans (a b c : ascii) :
  Ascii.compare a b = Lt -> Ascii.compare b c = Lt -> Ascii.compare a c = Lt.
Proof.
  unfold Ascii.compare. rewrite !N.compare_lt_iff. lia.
Qed.

Lemma compare_lt_trans (s t u : string) :
  String.compare s t = Lt -> String.compare t u = Lt -> String.compare s u = Lt.
Proof.
  revert t u. induction s as [|a s IH]; intros [|b t] [|c u]; simpl;
    try discriminate; try reflexivity.
  destruct (Ascii.compare a b) eqn:Hab; try discriminate;
    destruct (Ascii.compare b c) eqn:Hbc; try discriminate; intros Hst Htu.
  - apply Ascii.compare_eq_iff in Hab, Hbc. subst.
    assert (Ascii.compare c c = Eq) as -> by apply N.compare_refl.
    eauto.
  - apply Ascii.compare_eq_iff in Hab. subst. now rewrite Hbc.
  - apply Ascii.compare_eq_iff in Hbc. subst. now rewrite Hab.
  - now rewrite (ascii_compare_lt_trans _ _ _ Hab Hbc).
Qed.

Lemma compare_refl (s : string) : String.compare s s = Eq.
Proof.
  induction s as [|a s IH]; simpl; [reflexivity|].
  assert (Ascii.compare a a = Eq) as -> by apply N.compare_refl.
  exact IH.
Qed.

Lemma leb_refl (s : string) : String.leb s s = true.
Proof. unfold String.leb. now rewrite compare_refl. Qed.

Lemma leb_iff (s t : string) :
  String.leb s t = true <-> s = t \/ String.compare s t = Lt.
Proof.
  unfold String.leb. destruct (String.compare s t) eqn:Hc; split;
    try (intros [<- | ?]); try discriminate; auto.
  - left. now apply String.compare_eq_iff.
  - now rewrite compare_refl in Hc.
Qed.

Lemma leb_trans (s t u : string) :
  String.leb s t = true -> String.leb t u = true -> String.leb s u = true.
Proof.
  rewrite !leb_iff. intros [<- | Hst] [<- | Htu]; auto.
  right. eapply compare_lt_trans; eauto.
Qed.

Lemma ltb_leb (s t : string) : String.ltb s t = true -> String.leb s t = true.
Proof.
  unfold String.ltb, String.leb. now destruct (String.compare s t).
Qed.

Lemma not_ltb_leb (s t : string) : String.ltb s t = false -> String.leb t s = true.
Proof.
  unfold String.ltb, String.leb. rewrite (String.compare_antisym t s).
  now destruct (String.compare s t).
Qed.

(** [least] is a member and a lower bound, [greatest] a member and an
    upper bound. *)
Lemma least_spec (rest : list string) (first : string) :
  In (least first rest) (first :: rest) /\
  forall s, In s (first :: rest) -> String.leb (least first rest) s = true.
Proof.
  revert first. induction rest as [|x rest IH]; intros first.
  - split; [now left|]. intros s [<- | []]. apply leb_refl.
  - unfold least. simpl. fold (least (if String.ltb x first then x else first) rest).
    destruct (IH (if String.ltb x first then x else first)) as [Hin Hlow].
    destruct (String.ltb x first) eqn:Hlt.
    + split.
      * destruct Hin as [<- | Hin]; [right; now left | right; now right].
      * intros s [<- | [<- | Hs]].
        -- eapply leb_trans; [apply Hlow; now left | now apply ltb_leb].
        -- apply Hlow. now left.
        -- apply Hlow. now right.
    + split.
      * destruct Hin as [<- | Hin]; [now left | right; now right].
      * intros s [<- | [<- | Hs]].
        -- apply Hlow. now left.
        -- eapply leb_trans; [apply Hlow; now left | now apply not_ltb_leb].
        -- apply Hlow. now right.
Qed.

Lemma greatest_spec (rest : list string) (first : string) :
  In (greatest first rest) (first :: rest) /\
  forall s, In s (first :: rest) -> String.leb s (greatest first rest) = true.
Proof.
  revert first. induction rest as [|x rest IH]; intros first.
  - split; [now left|]. intros s [<- | []]. apply leb_refl.
  - unfold greatest. simpl.
    fold (greatest (if String.ltb first x then x else first) rest).
    destruct (IH (if String.ltb first x then x else first)) as [Hin Hup].
    destruct (String.ltb first x) eqn:Hlt.
    + split.
      * destruct Hin as [<- | Hin]; [right; now left | right; now right].
      * intros s [<- | [<- | Hs]].
        -- apply leb_trans with x; [now apply ltb_leb | apply Hup; now left].
        -- apply Hup. now left.
        -- apply Hup. now right.
    + split.
      * destruct Hin as [<- | Hin]; [now left | right; now right].
      * intros s [<- | [<- | Hs]].
        -- apply Hup. now left.
        -- apply leb_trans with first; [now apply not_ltb_leb | apply Hup; now left].
        -- apply Hup. now right.
Qed.

(** [min] and [max] of texts. *)
Lemma py_min_texts `{rt : Runtime} (rest : list string) (first : string) :
  py_min (VStr first) (map VStr rest) = Ok (VStr (least first rest)).
Proof.
  revert first. induction rest as [|x rest IH]; intros first; [reflexivity|].
  unfold py_min in *. simpl. unfold least. simpl.
  destruct (String.ltb x first); apply IH.
Qed.

Lemma py_max_texts `{rt : Runtime} (rest : list string) (first : string) :
  py_max (VStr first) (map VStr rest) = Ok (VStr (greatest first rest)).
Proof.
  revert first. induction rest as [|x rest IH]; intros first; [reflexivity|].
  unfold py_max in *. simpl. unfold greatest. simpl.
  destruct (String.ltb first x); apply IH.
Qed.

Lemma texts_are_values (l : list value) :
  forallb is_text l = true -> l = map VStr (texts_of l).
Proof.
  induction l as [|v l IH]; [reflexivity|]. simpl.
  destruct v; try discriminate. simpl. intros Hl. now rewrite <- IH.
Qed.

(** The timestamp [date_of] picks, when it is not empty. *)
Lemma date_of_filled (item : dict) :
  (if truthy (date_of item) then [date_of item] else []) =
  match filled_timestamp item with Some v => [v] | None => [] end.
Proof.
  unfold date_of, filled_timestamp, filled, py_or, dict_get_none, dict_get.
  destruct (lookup "created_utc" item) as [a|];
    destruct (lookup "published_at" item) as [b|];
    destruct (lookup "date" item) as [c|]; simpl;
    repeat match goal with
           | |- context [truthy ?v] =>
               is_var v; let H := fresh in
               destruct (truthy v) eqn:H; simpl; rewrite ?H; simpl
           end; congruence.
Qed.

Lemma collect_dates_filled (raw_data : list dict) :
  collect_dates raw_data = filled_timestamps raw_data.
Proof.
  unfold collect_dates, filled_timestamps.
  enough (forall acc,
            fold_left
              (fun (dates : list value) item =>
                 let date_str := date_of item in
                 if truthy date_str then dates +++ [date_str] else dates)
              raw_data acc
            = acc +++ flat_map (fun item => match filled_timestamp item with
                                            | Some v => [v]
                                            | None => []
                                            end) raw_data) as H by apply (H []).
  induction raw_data as [|item raw IH]; intros acc; simpl.
  - now rewrite app_nil_r.
  - rewrite IH, <- date_of_filled. cbv zeta.
    destruct (truthy (date_of item)); simpl.
    + now rewrite <- app_assoc.
    + reflexivity.
Qed.

(** C7, as amended.  The timestamp of a record is the first of
    [created_utc], [published_at], [date] that is present and not empty;
    a record without one is left out; over timestamps that are texts the
    range is their lexicographic minimum and maximum, and ["N/A"] twice
    when there is none. *)
Theorem date_range_of_filled_timestamps `{rt : Runtime} (raw_data : list dict) :
  forallb is_text (filled_timestamps raw_data) = true ->
  let texts := texts_of (filled_timestamps raw_data) in
  _get_date_range raw_data = Ok (range_of texts) /\
  forall first rest, texts = first :: rest ->
    In (least first rest) texts /\
    In (greatest first rest) texts /\
    forall s, In s texts ->
      String.leb (least first rest) s = true /\
      String.leb s (greatest first rest) = true.
Proof.
  intros Htexts texts. split.
  - unfold _get_date_range. rewrite collect_dates_filled.
    rewrite (texts_are_values _ Htexts). fold texts.
    destruct texts as [|first rest]; [reflexivity|]. simpl.
    now rewrite py_min_texts, py_max_texts.
  - intros first rest ->.
    destruct (least_spec rest first) as [Hin Hlow].
    destruct (greatest_spec rest first) as [Hin' Hup].
    repeat split; auto.
Qed.

Lemma date_range_of_filled_timestamps_witness :
  @_get_date_range Demo.python
    [[("source", VStr "reddit"); ("created_utc", VStr "2024-03-01T10:00:00")];
     [("source", VStr "amazon"); ("date", VStr "")];
     [("source", VStr "youtube"); ("published_at", VStr "2023-11-20T08:30:00Z")];
     [("source", VStr "amazon")]]
  = Ok (VDict [("earliest", VStr "2023-11-20T08:30:00Z");
               ("latest", VStr "2024-03-01T10:00:00")]).
Proof.
  destruct (@date_range_of_filled_timestamps Demo.python
    [[("source", VStr "reddit"); ("created_utc", VStr "2024-03-01T10:00:00")];
     [("source", VStr "amazon"); ("date", VStr "")];
     [("source", VStr "youtube"); ("published_at", VStr "2023-11-20T08:30:00Z")];
     [("source", VStr "amazon")]] eq_refl) as [Hrange _].
  rewrite Hrange. reflexivity.
Defined.

(** C7 as stated fails: a [date] that is present but empty, as the review
    connector delivers when a review shows no date, is the first present
    field of its record, yet it does not enter the range. *)
Lemma empty_timestamp_is_skipped :
  let raw_data := [[("source", VStr "amazon"); ("date", VStr "")];
                   [("source", VStr "amazon"); ("date", VStr "2024-01-05")]] in
  timestamps raw_data = [VStr ""; VStr "2024-01-05"] /\
  date_range raw_data =
    VDict [("earliest", VStr ""); ("latest", VStr "2024-01-05")] /\
  @_get_date_range Demo.python raw_data =
    Ok (VDict [("earliest", VStr "2024-01-05"); ("latest", VStr "2024-01-05")]) /\
  @_get_date_range Demo.python raw_data <> Ok (date_range raw_data).
Proof.
  cbv zeta. split; [|split; [|split]]; try reflexivity.
  vm_compute. discriminate.
Qed.

End Assembly.

(** ** The two document encodings *)

Module Rendering.
Import Py Runtime MessageMap Spec.

Lemma Ok_inj {A} (a b : A) : Ok a = Ok b -> a = b.
Proof. now intros [= ->]. Qed.

(** Every step of a computation that returned did return. *)
Ltac bind_inv H :=
  repeat match type of H with
         | bind ?c _ = Ok _ =>
             let E := fresh "E" in
             destruct c eqn:E; cbn [bind] in H; [|discriminate H]
         end;
  try (apply Ok_inj in H; subst).

(** *** Prose *)

Lemma md_headers_app (a b : list string) :
  md_headers (a +++ b) = md_headers a +++ md_headers b.
Proof. apply flat_map_app. Qed.

Lemma md_headers_map {A} (g : A -> string) (l : list A) :
  (forall x, md_header (g x) = []) -> md_headers (map g l) = [].
Proof.
  intros Hg. induction l as [|x l IH]; simpl; [reflexivity|].
  now rewrite Hg, IH.
Qed.

(** A loop whose rounds write no header leaves the headers as they are. *)
Lemma emit_headers {A} (xs : list A) (body : A -> result (list string))
  (md md' : list string) :
  emit xs body md = Ok md' ->
  (forall x ls, body x = Ok ls -> md_headers ls = []) ->
  md_headers md' = md_headers md.
Proof.
  intros H Hbody. revert md H.
  induction xs as [|x xs IH]; intros md H.
  - now apply Ok_inj in H; subst.
  - unfold emit in H. simpl in H. bind_inv H. bind_inv E.
    apply IH in H.
    rewrite H, md_headers_app, (Hbody _ _ E0). apply app_nil_r.
Qed.

Section Prose.
Context `{rt : Runtime}.

Lemma quote_lines_plain v key ls :
  quote_lines v key = Ok ls -> md_headers ls = [].
Proof.
  unfold quote_lines. intros H. bind_inv H.
  now apply md_headers_map.
Qed.

Lemma md_item_plain (v : value) ls :
  Ok ["- " ++ str v] = Ok ls -> md_headers ls = [].
Proof. intros H. bind_inv H. reflexivity. Qed.

Lemma md_pain_plain (p : Z * value) ls :
  md_pain (fst p) (snd p) = Ok ls -> md_headers ls = [].
Proof.
  unfold md_pain. intros H. bind_inv H.
  rewrite !md_headers_app, (quote_lines_plain _ _ _ E1). reflexivity.
Qed.

Lemma md_emotion_plain emotion ls :
  md_emotion emotion = Ok ls -> md_headers ls = [].
Proof.
  unfold md_emotion. intros H. bind_inv H.
  rewrite !md_headers_app, (quote_lines_plain _ _ _ E3). reflexivity.
Qed.

Lemma md_stage_plain awareness stage ls :
  md_stage awareness stage = Ok ls -> md_headers ls = [].
Proof.
  unfold md_stage. intros H. destruct stage as [stage_key stage_name].
  bind_inv H. destruct (truthy a); bind_inv H; [|reflexivity].
  rewrite !md_headers_app, (quote_lines_plain _ _ _ E2).
  rewrite md_headers_map by reflexivity. reflexivity.
Qed.

Lemma md_hooks_plain entry ls : md_hooks entry = Ok ls -> md_headers ls = [].
Proof.
  unfold md_hooks. intros H. destruct entry as [stage hook_list]. bind_inv H.
  rewrite !md_headers_app, md_headers_map by reflexivity. reflexivity.
Qed.

Lemma md_framework_plain framework ls :
  md_framework framework = Ok ls -> md_headers ls = [].
Proof. unfold md_framework. intros H. bind_inv H. reflexivity. Qed.

Lemma md_objection_plain obj ls :
  md_objection obj = Ok ls -> md_headers ls = [].
Proof. unfold md_objection. intros H. bind_inv H. reflexivity. Qed.

Lemma prose_headers (message_map : dict) (md : list string) :
  markdown_lines message_map = Ok md -> md_headers md = prose_sections.
Proof.
  unfold markdown_lines. intros H. bind_inv H.
  repeat match goal with
         | H : emit _ _ _ = Ok ?m |- context [md_headers ?m] =>
             rewrite (emit_headers _ _ _ _ H), md_headers_app
               by (intros ? ? Hb; cbv beta in Hb;
                   eauto using md_item_plain, md_pain_plain, md_emotion_plain,
                     md_stage_plain, md_hooks_plain, md_framework_plain,
                     md_objection_plain)
         end.
  reflexivity.
Qed.

End Prose.

(** *** Styled *)

Lemma html_headers_app (a b : list frag) :
  html_headers (a +++ b) = html_headers a +++ html_headers b.
Proof. apply flat_map_app. Qed.

Lemma html_headers_flat_map {A} (g : A -> list frag) (l : list A) :
  (forall x, html_headers (g x) = []) -> html_headers (flat_map g l) = [].
Proof.
  intros Hg. induction l as [|x l IH]; simpl; [reflexivity|].
  now rewrite html_headers_app, Hg, IH.
Qed.

Lemma extend_headers {A} (xs : list A) (body : A -> result (list frag))
  (html html' : list frag) :
  extend xs body html = Ok html' ->
  (forall x fs, body x = Ok fs -> html_headers fs = []) ->
  html_headers html' = html_headers html.
Proof.
  intros H Hbody. revert html H.
  induction xs as [|x xs IH]; intros html H.
  - now apply Ok_inj in H; subst.
  - unfold extend in H. simpl in H. bind_inv H. bind_inv E.
    apply IH in H.
    rewrite H, html_headers_app, (Hbody _ _ E0). apply app_nil_r.
Qed.

(** The headers that the template of the page and of each section
    writes. *)
Lemma page_headers :
  h2_titles html_page_0 = [] /\
  h2_titles html_page_1 = ["Executive Summary"] /\
  h2_titles html_page_2 = [] /\ h2_titles html_page_3 = [] /\
  h2_titles html_page_4 = [] /\ h2_titles html_page_5 = [] /\
  h2_titles html_page_6 = [] /\
  h2_titles html_page_7 = ["Key Insights"] /\
  h2_titles html_pain_points_0 = ["Pain Points"] /\
  h2_titles html_hooks_0 = ["Ad-Ready Hooks"] /\
  h2_titles html_frameworks_0 = ["Body Copy Frameworks"] /\
  h2_titles html_end_0 = [].
Proof. vm_compute. repeat split. Qed.

Section Styled.
Context `{rt : Runtime}.

Lemma html_insight_plain (v : value) fs :
  Ok [Lit html_insight_0; Val (str v); Lit html_insight_1] = Ok fs ->
  html_headers fs = [].
Proof. intros H. bind_inv H. reflexivity. Qed.

Lemma html_quote_plain (quote : value) : html_headers (html_quote quote) = [].
Proof. reflexivity. Qed.

Lemma html_pain_plain pain fs : html_pain pain = Ok fs -> html_headers fs = [].
Proof.
  unfold html_pain. intros H. bind_inv H.
  rewrite !html_headers_app,
    (html_headers_flat_map _ _ html_quote_plain).
  reflexivity.
Qed.

Lemma html_hooks_plain entry fs : html_hooks entry = Ok fs -> html_headers fs = [].
Proof.
  unfold html_hooks. intros H. destruct entry as [stage hooks]. bind_inv H.
  rewrite !html_headers_app, html_headers_flat_map by reflexivity.
  reflexivity.
Qed.

Lemma html_framework_plain framework fs :
  html_framework framework = Ok fs -> html_headers fs = [].
Proof. unfold html_framework. intros H. bind_inv H. reflexivity. Qed.

Lemma styled_headers (message_map : dict) (html : list frag) :
  html_frags message_map = Ok html -> html_headers html = styled_sections.
Proof.
  unfold html_frags. intros H. bind_inv H.
  rewrite !html_headers_app.
  repeat match goal with
         | H : extend _ _ _ = Ok ?m |- context [html_headers ?m] =>
             rewrite (extend_headers _ _ _ _ H), ?html_headers_app
               by (intros ? ? Hb; cbv beta in Hb;
                   eauto using html_insight_plain, html_pain_plain,
                     html_hooks_plain, html_framework_plain)
         end.
  vm_compute. reflexivity.
Qed.

End Styled.

(** C5, as amended.  Whenever both encodings render, the prose encoding
    writes the nine section headers in the fixed order and the styled
    encoding writes five of them, in the same order: it has no section
    for emotional patterns, awareness stages, calls to action and
    objection handlers.  The headers do not depend on the content, so
    an empty section still has its header. *)
Theorem styled_headers_among_prose_headers `{rt : Runtime}
  (message_map : dict) (prose styled : string) :
  _generate_markdown message_map = Ok prose ->
  _generate_html message_map = Ok styled ->
  exists md html,
    markdown_lines message_map = Ok md /\
    prose = String.concat nl md /\
    html_frags message_map = Ok html /\
    styled = String.concat "" (map frag_text html) /\
    md_headers md = prose_sections /\
    html_headers html = styled_sections /\
    html_headers html = without prose_only_sections (md_headers md).
Proof.
  unfold _generate_markdown, _generate_html. intros Hmd Hhtml.
  bind_inv Hmd. bind_inv Hhtml.
  eexists _, _. repeat (split; [reflexivity|]).
  rewrite (prose_headers _ _ E), (styled_headers _ _ E0).
  repeat split.
Qed.

Lemma styled_headers_among_prose_headers_witness :
  exists prose styled md html,
    @_generate_markdown Demo.python Demo.report = Ok prose /\
    @_generate_html Demo.python Demo.report = Ok styled /\
    @markdown_lines Demo.python Demo.report = Ok md /\
    @html_frags Demo.python Demo.report = Ok html /\
    html_headers html = without prose_only_sections (md_headers md).
Proof.
  destruct (@styled_headers_among_prose_headers Demo.python Demo.report
              _ _ eq_refl eq_refl)
    as (md & html & Hlines & _ & Hfrags & _ & _ & _ & Hsame).
  eexists _, _, md, html. repeat split; try eassumption; reflexivity.
Defined.

(** C5 as stated fails: on the same report the two encodings do not
    have the same list of section headers. *)
Lemma encodings_differ_in_sections :
  (md <- @markdown_lines Demo.python Demo.report ;; Ok (md_headers md))
    = Ok prose_sections /\
  (html <- @html_frags Demo.python Demo.report ;; Ok (html_headers html))
    = Ok styled_sections /\
  prose_sections <> styled_sections.
Proof.
  split; [vm_compute; reflexivity|].
  split; [vm_compute; reflexivity|].
  discriminate.
Qed.

End Rendering.

(** ** The corpus builder *)

Module Corpus.
Import Py Main Spec.

Lemma append_field_texts (key : string) (item : dict) (texts : list value) :
  append_field key item texts = texts +++ text_field key item.
Proof.
  unfold append_field, text_field.
  destruct (lookup key item) as [v|]; [destruct (truthy v)|];
    now rewrite ?app_nil_r.
Qed.

Lemma append_entry_text (texts : list value) (c : value) :
  entry_ok c = true -> append_entry texts c = texts +++ entry_text c.
Proof.
  unfold entry_ok, append_entry, entry_text, text_field.
  destruct c; try (intros; now rewrite app_nil_r).
  destruct (lookup "text" d) as [t|]; [intros -> | intros _];
    now rewrite ?app_nil_r.
Qed.

Lemma append_entries_texts (l : list value) (texts : list value) :
  forallb entry_ok l = true ->
  for_each l (fun texts c => Ok (append_entry texts c)) texts =
  Ok (texts +++ flat_map entry_text l).
Proof.
  revert texts. induction l as [|c l IH]; intros texts; simpl.
  - now rewrite app_nil_r.
  - intros [Hc Hl]%andb_true_iff.
    rewrite IH, (append_entry_text _ _ Hc), <- app_assoc by assumption.
    reflexivity.
Qed.

(** Entries that are texts, as the characters of a string or the keys of
    a dict are, add nothing. *)
Lemma append_texts_nothing (l : list string) (texts : list value) :
  for_each (map VStr l) (fun texts c => Ok (append_entry texts c)) texts =
  Ok texts.
Proof.
  revert texts. induction l as [|c l IH]; intros texts; simpl; auto.
Qed.

Lemma append_nested_texts (key : string) (item : dict) (texts : list value) :
  nested_ok key item = true ->
  append_nested key item texts = Ok (texts +++ direct_texts key item).
Proof.
  unfold nested_ok, append_nested, direct_texts.
  destruct (lookup key item) as [[| | | |s|l|d]|]; try discriminate; simpl.
  - intros _. now rewrite append_texts_nothing, app_nil_r.
  - apply append_entries_texts.
  - intros _. rewrite <- (map_map fst VStr), append_texts_nothing.
    now rewrite app_nil_r.
  - intros _. now rewrite app_nil_r.
Qed.

(** C2, as amended.  Per record, in order: the body if it is not empty,
    the title if it is not empty (also when it repeats the body), the
    text of each entry directly under [comments], then of each entry
    directly under [replies]; nothing is removed as a duplicate and
    nothing is cut off. *)
Theorem corpus_of_records (data : list dict) :
  forallb record_ok data = true ->
  analyze_data_texts data = Ok (corpus_flat data).
Proof.
  unfold analyze_data_texts, corpus_flat.
  enough (forall texts,
            forallb record_ok data = true ->
            for_each data
              (fun texts item =>
                 let texts := append_field "text" item texts in
                 let texts := append_field "title" item texts in
                 texts <- append_nested "comments" item texts ;;
                 append_nested "replies" item texts) texts
            = Ok (texts +++ flat_map record_texts_flat data)) as H
      by apply (H []).
  induction data as [|item data IH]; intros texts; simpl.
  - now rewrite app_nil_r.
  - intros [[Hc Hr]%andb_true_iff Hdata]%andb_true_iff.
    rewrite !append_field_texts, (append_nested_texts _ _ _ Hc). simpl.
    rewrite (append_nested_texts _ _ _ Hr). simpl.
    rewrite IH by assumption. unfold record_texts_flat.
    now rewrite <- !app_assoc.
Qed.

Lemma corpus_of_records_witness :
  analyze_data_texts
    [[("source", VStr "reddit"); ("title", VStr "Knee pain"); ("text", VStr "");
      ("comments", VList [VDict [("text", VStr "same here")];
                          VDict [("text", VStr "try insoles")]])];
     [("source", VStr "youtube"); ("text", VStr "great video");
      ("replies", VList [VDict [("text", VStr "agreed")]])]]
  = Ok [VStr "Knee pain"; VStr "same here"; VStr "try insoles";
        VStr "great video"; VStr "agreed"].
Proof.
  rewrite corpus_of_records; reflexivity.
Defined.

(** C2 as stated fails: the code keeps a title that repeats the body, and
    it does not read the replies under a comment. *)
Lemma corpus_is_not_recursive :
  let data :=
    [[("text", VStr "love it"); ("title", VStr "love it")];
     [("text", VStr "worth it?");
      ("comments", VList [VDict [("text", VStr "yes");
                                 ("replies", VList [VDict [("text", VStr "no")]])]])]] in
  analyze_data_texts data =
    Ok [VStr "love it"; VStr "love it"; VStr "worth it?"; VStr "yes"] /\
  corpus data = [VStr "love it"; VStr "worth it?"; VStr "yes"; VStr "no"] /\
  analyze_data_texts data <> Ok (corpus data).
Proof.
  cbv zeta. split; [reflexivity|]. split; [reflexivity|].
  vm_compute. discriminate.
Qed.

End Corpus.

(** ** More on the passes of the orchestrator *)

Module PassesMore.
Import Py Runtime Analyzer Shapes Passes.

(** The ad-framework pass degrades like the pattern pass.  A response
    that does not decode is wrapped as [{raw_framework: text}], one that
    decodes is returned as it is, and any other exception of the decoder
    is returned as [{error: str(e)}]; the pass never raises. *)
Theorem framework_pass_degrades `{rt : Runtime} (self : ClaudeAnalyzer)
  (analysis : value) (max_tokens : Z) (w : world) (m : message) (t : string) :
  let req := framework_request self analysis max_tokens in
  client self (calls w) req = Ok m ->
  first_text m = Ok t ->
  (json_loads t = Raise JSONDecodeError ->
   generate_ad_copy_framework self analysis max_tokens w =
   (Ok (VDict [("raw_framework", VStr t)]), sent req w)) /\
  (forall v, json_loads t = Ok v ->
   generate_ad_copy_framework self analysis max_tokens w = (Ok v, sent req w)) /\
  (forall e, json_loads t = Raise e -> e <> JSONDecodeError ->
   generate_ad_copy_framework self analysis max_tokens w =
   (Ok (VDict [("error", VStr (exn_str e))]),
    print ("Error generating ad copy framework: " ++ exn_str e) (sent req w))).
Proof.
  intros req Hm Ht.
  rewrite generate_ad_copy_framework_unfold; cbv zeta; fold req.
  rewrite Hm; simpl. rewrite Ht; simpl. unfold loads_or_wrap.
  split; [|split].
  - intros ->. reflexivity.
  - intros v ->. reflexivity.
  - intros e -> Hne. destruct e; try reflexivity. now destruct Hne.
Qed.

Lemma framework_pass_degrades_witness :
  fst (@generate_ad_copy_framework Demo.python (Demo.says "Sure! Here it is")
         (VDict [("raw_analysis", VStr "not json")]) 3000 Demo.fresh)
  = Ok (VDict [("raw_framework", VStr "Sure! Here it is")]).
Proof.
  destruct (@framework_pass_degrades Demo.python (Demo.says "Sure! Here it is")
              (VDict [("raw_analysis", VStr "not json")]) 3000 Demo.fresh
              {| msg_content := [TextBlock "Sure! Here it is"] |}
              "Sure! Here it is" eq_refl eq_refl) as [Hwrap _].
  rewrite (Hwrap eq_refl). reflexivity.
Defined.

(** A response without text (no content block, or a first block that is
    not text) is not raised: the pattern pass and the ad-framework pass
    return [{error: str(e)}] for the [IndexError] or [AttributeError] of
    reading it, the categorization pass returns the empty dict. *)
Theorem response_without_text `{rt : Runtime} (self : ClaudeAnalyzer)
  (w : world) (m : message) :
  (msg_content m = [] \/ exists rest, msg_content m = OtherBlock :: rest) ->
  let e := match msg_content m with [] => IndexError | _ => AttributeError end in
  (forall texts context max_tokens,
     client self (calls w) (analysis_request self texts context max_tokens) = Ok m ->
     fst (analyze_batch self texts context max_tokens w) =
     Ok (VDict [("error", VStr (exn_str e))])) /\
  (forall analysis max_tokens,
     client self (calls w) (framework_request self analysis max_tokens) = Ok m ->
     fst (generate_ad_copy_framework self analysis max_tokens w) =
     Ok (VDict [("error", VStr (exn_str e))])) /\
  (forall data text_field,
     client self (calls w) (categorize_request self data text_field) = Ok m ->
     fst (categorize_by_awareness self data text_field w) = Ok (VDict [])).
Proof.
  intros Hm e.
  assert (first_text m = Raise e) as Ht.
  { unfold first_text, list_index, e.
    destruct Hm as [-> | [rest ->]]; reflexivity. }
  split; [|split].
  - intros texts context max_tokens Hc.
    rewrite analyze_batch_unfold; cbv zeta. rewrite Hc; simpl.
    now rewrite Ht.
  - intros analysis max_tokens Hc.
    rewrite generate_ad_copy_framework_unfold; cbv zeta. rewrite Hc; simpl.
    now rewrite Ht.
  - intros data text_field Hc.
    rewrite categorize_by_awareness_unfold; cbv zeta.
    destruct (negb _); [reflexivity|]. rewrite Hc; simpl. now rewrite Ht.
Qed.

Lemma response_without_text_witness :
  fst (@analyze_batch Demo.python
         (Demo.answering (Ok {| msg_content := [] |})) ["a"] "" 4000 Demo.fresh)
  = Ok (VDict [("error", VStr "list index out of range")]).
Proof.
  destruct (@response_without_text Demo.python
              (Demo.answering (Ok {| msg_content := [] |})) Demo.fresh
              {| msg_content := [] |} (or_introl eq_refl)) as [Ha _].
  rewrite (Ha ["a"] "" 4000%Z eq_refl). reflexivity.
Defined.

(** *** What the categorization pass returns *)

Lemma lookup_in (k : string) (d : dict) (v : value) :
  lookup k d = Some v -> In (k, v) d.
Proof.
  induction d as [|[k' v'] d IH]; simpl; [discriminate|].
  destruct (String.eqb_spec k k') as [->|_].
  - intros [= ->]. now left.
  - intros H. right. now apply IH.
Qed.

Lemma dict_set_keys (d : dict) (k : string) (v : value) :
  has_key k d = true -> map fst (dict_set d k v) = map fst d.
Proof.
  unfold has_key. induction d as [|[k' v'] d IH]; simpl; [discriminate|].
  destruct (String.eqb_spec k k') as [->|_]; simpl; [reflexivity|].
  intros H. now rewrite IH.
Qed.

Lemma dict_set_in (d : dict) (k k' : string) (v v' : value) :
  In (k', v') (dict_set d k v) -> (k' = k /\ v' = v) \/ In (k', v') d.
Proof.
  induction d as [|[k0 v0] d IH]; simpl.
  - intros [[= <- <-] | []]. now left.
  - destruct (String.eqb_spec k k0) as [->|_]; simpl.
    + intros [[= <- <-] | H]; [now left | right; now right].
    + intros [H | H]; [right; now left|].
      destruct (IH H) as [? | ?]; [now left | right; now right].
Qed.

Lemma list_index_in {A} (l : list A) (i : Z) (x : A) :
  list_index l i = Ok x -> In x l.
Proof.
  unfold list_index. destruct (_ || _); [discriminate|].
  destruct (nth_error l _) eqn:Hn; [|discriminate].
  intros [= <-]. eapply nth_error_In; eauto.
Qed.

Section Buckets.
Context `{rt : Runtime}.
Variable data : list dict.

Lemma bucket_keeps_shape (d d' : dict) (item : value) :
  bucket data d item = Ok d' -> bucketed data d -> bucketed data d'.
Proof.
  unfold bucket. intros H [Hkeys Hvals].
  destruct (getitem item (VStr "text_index")) as [idx|] eqn:Hi;
    [|discriminate]. cbn [bind] in H.
  destruct (getitem item (VStr "stage")) as [stage|] eqn:Hs;
    [|discriminate]. cbn [bind] in H.
  destruct (lt idx _) as [[|]|]; try discriminate; cbn [bind] in H;
    [|injection H as <-; now split].
  destruct (contains d stage) as [[|]|] eqn:Hk; try discriminate;
    cbn [bind] in H; [|injection H as <-; now split].
  destruct (getitem (VList (map VDict data)) idx) as [x|] eqn:Hx;
    [|discriminate]. cbn [bind] in H.
  assert (exists it, In it data /\ x = VDict it) as Hfrom.
  { simpl in Hx. destruct (as_index idx); [|discriminate].
    apply list_index_in, in_map_iff in Hx. destruct Hx as (it & <- & Hin).
    now exists it. }
  destruct stage as [| | | |label|l|l0]; try discriminate.
  simpl in Hk. injection Hk as Hk.
  unfold append_at in H. simpl in H.
  destruct (lookup label d) as [l|] eqn:Hl; [|discriminate]. simpl in H.
  destruct l as [| | | | |xs|]; try discriminate. injection H as <-.
  split.
  - now rewrite dict_set_keys.
  - intros k v [[-> ->] | Hin]%dict_set_in; [|now apply (Hvals k v)].
    exists (xs +++ [x]). split; [reflexivity|].
    intros y [Hy | [<- | []]]%in_app_iff; [|assumption].
    destruct (Hvals _ _ (lookup_in _ _ _ Hl)) as (xs' & [= <-] & Hxs).
    now apply Hxs.
Qed.

Lemma buckets_keep_shape (items : list value) (d d' : dict) :
  for_each items (bucket data) d = Ok d' -> bucketed data d -> bucketed data d'.
Proof.
  revert d. induction items as [|item items IH]; intros d; simpl.
  - now intros [= <-].
  - destruct (bucket data d item) as [d1|] eqn:Hb; [|discriminate]. simpl.
    intros H Hd. eapply IH; eauto using bucket_keeps_shape.
Qed.

(** The categorization pass returns a dict that is empty or has exactly
    the five stage keys in their order, each with a list; every item of a
    list is an item of [data], none is made up from the response. *)
Theorem categorize_result_shape (self : ClaudeAnalyzer) (text_field : string)
  (w : world) :
  exists d,
    fst (categorize_by_awareness self data text_field w) = Ok (VDict d) /\
    (d = [] \/ bucketed data d).
Proof.
  rewrite categorize_by_awareness_unfold; cbv zeta.
  destruct (negb _); [exists []; split; [reflexivity | now left]|].
  destruct (client self _ _) as [m|]; simpl;
    [|exists []; split; [reflexivity | now left]].
  destruct (first_text m) as [t|]; simpl;
    [|exists []; split; [reflexivity | now left]].
  unfold organize.
  destruct (json_loads t) as [result|]; simpl;
    [|exists []; split; [reflexivity | now left]].
  destruct (get result "categorized" (VList [])) as [assignments|]; simpl;
    [|exists []; split; [reflexivity | now left]].
  destruct (iter assignments) as [items|]; simpl;
    [|exists []; split; [reflexivity | now left]].
  destruct (for_each items (bucket data) _) as [d|] eqn:Hd; simpl;
    [|exists []; split; [reflexivity | now left]].
  exists d. split; [reflexivity|]. right.
  apply (buckets_keep_shape _ _ _ Hd). split; [reflexivity|].
  intros k v Hin. exists []. split; [|intros x []].
  simpl in Hin.
  repeat destruct Hin as [[= <- <-] | Hin]; try reflexivity. destruct Hin.
Qed.

End Buckets.

(** The categorization pass sends one request, and none when there is
    no text to send. *)
Theorem categorize_calls `{rt : Runtime} (self : ClaudeAnalyzer)
  (data : list dict) (text_field : string) (w : world) :
  calls (snd (categorize_by_awareness self data text_field w)) =
  match sample_texts data text_field with
  | [] => calls w
  | _ :: _ => calls w +++ [categorize_request self data text_field]
  end.
Proof.
  rewrite categorize_by_awareness_unfold; cbv zeta.
  destruct (sample_texts data text_field) eqn:Hs; [reflexivity|]. simpl.
  destruct (bind _ _); reflexivity.
Qed.

(** Of the values of the text field, at most the first 50 are sent;
    each is the field of an item, and the items after them change the
    request in nothing. *)
Theorem categorize_sends_first_fifty `{rt : Runtime} (self : ClaudeAnalyzer)
  (data : list dict) (text_field : string) :
  (length (sample_texts data text_field) <= 50)%nat /\
  (forall t, In t (sample_texts data text_field) ->
     exists item, In item data /\ lookup text_field item = Some t) /\
  (forall more,
     length (sample_texts data text_field) = 50%nat ->
     sample_texts (data +++ more) text_field = sample_texts data text_field /\
     categorize_request self (data +++ more) text_field =
     categorize_request self data text_field).
Proof.
  split; [|split].
  - unfold sample_texts. rewrite length_firstn. apply Nat.le_min_l.
  - unfold sample_texts. intros t Hin.
    apply (In_nth_error _ t) in Hin. destruct Hin as [n Hn].
    assert (In t (flat_map (fun item => match lookup text_field item with
                                        | Some t => [t]
                                        | None => []
                                        end) data)) as Hin.
    { eapply nth_error_In. apply (nth_error_firstn _ 50 n) in Hn || idtac.
      rewrite nth_error_firstn in Hn. destruct (n <? 50)%nat; [eauto|discriminate]. }
    apply in_flat_map in Hin. destruct Hin as (item & Hitem & Ht).
    exists item. split; [assumption|].
    destruct (lookup text_field item); [|destruct Ht].
    destruct Ht as [<- | []]. reflexivity.
  - intros more Hlen.
    assert (sample_texts (data +++ more) text_field =
            sample_texts data text_field) as Hsame.
    { unfold sample_texts in *. rewrite flat_map_app, firstn_app.
      rewrite length_firstn in Hlen.
      replace (50 - length _)%nat with 0%nat by lia.
      simpl. apply app_nil_r. }
    split; [assumption|]. unfold categorize_request. now rewrite Hsame.
Qed.

Lemma categorize_sends_first_fifty_witness :
  let data := repeat [("text", VStr "kept")] 50 in
  @categorize_request Demo.python (Demo.says "{}")
    (data +++ [[("text", VStr "left out")]]) "text"
  = @categorize_request Demo.python (Demo.says "{}") data "text".
Proof.
  intros data.
  destruct (@categorize_sends_first_fifty Demo.python (Demo.says "{}") data "text")
    as (_ & _ & Hmore).
  apply (Hmore [[("text", VStr "left out")]]). reflexivity.
Defined.

End PassesMore.

(** ** More on the assembly of the report *)

Module AssemblyMore.
Import Py Runtime MessageMap Spec Shapes.

Lemma dict_get_set (d : dict) (k k' : string) (v default : value) :
  dict_get (dict_set d k v) k' default =
  if k' =? k then v else dict_get d k' default.
Proof.
  unfold dict_get. induction d as [|[k0 v0] d IH]; simpl.
  - destruct (k' =? k); reflexivity.
  - destruct (String.eqb_spec k k0) as [->|Hne]; simpl.
    + destruct (k' =? k0); reflexivity.
    + destruct (String.eqb_spec k' k0) as [->|Hne'].
      * destruct (String.eqb_spec k0 k) as [->|_]; [contradiction|reflexivity].
      * apply IH.
Qed.

Lemma has_key_set (d : dict) (k k' : string) (v : value) :
  has_key k' (dict_set d k v) = (k' =? k) || has_key k' d.
Proof.
  unfold has_key. induction d as [|[k0 v0] d IH]; simpl.
  - destruct (k' =? k); reflexivity.
  - destruct (String.eqb_spec k k0) as [->|Hne]; simpl.
    + destruct (k' =? k0); reflexivity.
    + destruct (String.eqb_spec k' k0) as [->|Hne'].
      * destruct (String.eqb_spec k0 k) as [->|_]; [contradiction|reflexivity].
      * apply IH.
Qed.

(** The loop of [_summarize_raw_data] from any state of [sources] that
    holds integers. *)
Lemma count_sources_from (raw_data : list dict) : forall sources : dict,
  forallb (fun item => is_text (tag item)) raw_data = true ->
  (forall s, exists n, dict_get sources s (VInt 0) = VInt n) ->
  exists sources',
    for_each raw_data count_source sources = Ok sources' /\
    forall s,
      (exists n, dict_get sources s (VInt 0) = VInt n /\
         dict_get sources' s (VInt 0) =
         VInt (n + Z.of_nat (count_occ string_dec (tags raw_data) s))) /\
      has_key s sources' =
      has_key s sources || (0 <? count_occ string_dec (tags raw_data) s)%nat.
Proof.
  induction raw_data as [|item raw_data IH]; intros sources Htags Hints.
  - exists sources. split; [reflexivity|]. intros s. split.
    + destruct (Hints s) as [n Hn]. exists n. split; [assumption|].
      rewrite Hn. simpl. now rewrite Z.add_0_r.
    + simpl. now rewrite orb_false_r.
  - simpl in Htags. apply andb_true_iff in Htags. destruct Htags as [Htag Htags].
    destruct (tag item) as [| | | |src| |] eqn:Hsrc; try discriminate.
    destruct (Hints src) as [n Hn].
    assert (count_source sources item = Ok (dict_set sources src (VInt (n + 1))))
      as Hstep.
    { unfold count_source. fold (tag item). rewrite Hsrc, Hn. reflexivity. }
    destruct (IH (dict_set sources src (VInt (n + 1))) Htags) as (sources' & Hloop & Hcount).
    { intros s. rewrite dict_get_set. destruct (s =? src); eauto. }
    exists sources'. split.
    { simpl. rewrite Hstep. exact Hloop. }
    intros s. destruct (Hcount s) as [(m & Hm & Hm') Hkey].
    assert (tags (item :: raw_data) = src :: tags raw_data) as ->.
    { unfold tags. simpl. now rewrite Hsrc. }
    rewrite dict_get_set in Hm. rewrite has_key_set in Hkey.
    simpl count_occ. split.
    + destruct (Hints s) as [n0 Hn0]. exists n0. split; [assumption|].
      rewrite Hm'. f_equal.
      destruct (String.eqb_spec s src) as [->|Hne].
      * destruct (string_dec src src) as [_|]; [|contradiction].
        rewrite Hn in Hn0. injection Hm as <-. injection Hn0 as <-. lia.
      * destruct (string_dec src s) as [->|_]; [contradiction|].
        rewrite Hn0 in Hm. injection Hm as <-. reflexivity.
    + rewrite Hkey.
      destruct (String.eqb_spec s src) as [->|Hne].
      * destruct (string_dec src src) as [_|]; [|contradiction].
        simpl. now rewrite orb_true_r.
      * destruct (string_dec src s) as [->|_]; [contradiction|].
        reflexivity.
Qed.

(** The summary of the raw records counts them by their [source] tag.
    When every tag is a text, [sources] holds for each tag the number of
    records that carry it (a record without tag counts as ["unknown"]),
    it has no other key, and [total_items] is the number of records. *)
Theorem raw_summary_counts_by_source `{rt : Runtime} (raw_data : list dict) :
  forallb (fun item => is_text (tag item)) raw_data = true ->
  exists sources,
    for_each raw_data count_source [] = Ok sources /\
    (forall s, dict_get sources s (VInt 0) =
               VInt (Z.of_nat (count_occ string_dec (tags raw_data) s))) /\
    (forall s, has_key s sources = true <-> In s (tags raw_data)) /\
    (forall range, _get_date_range raw_data = Ok range ->
       _summarize_raw_data raw_data =
       Ok (VDict [("total_items", VInt (Z.of_nat (length raw_data)));
                  ("sources", VDict sources);
                  ("date_range", range)])).
Proof.
  intros Htags.
  destruct (count_sources_from raw_data [] Htags) as (sources & Hloop & Hcount).
  { intros s. now exists 0%Z. }
  exists sources. split; [assumption|]. split; [|split].
  - intros s. destruct (Hcount s) as [(n & Hn & Hn') _].
    injection Hn as <-. exact Hn'.
  - intros s. destruct (Hcount s) as [_ ->]. simpl.
    rewrite Nat.ltb_lt. symmetry. apply count_occ_In.
  - intros range Hrange. unfold _summarize_raw_data.
    rewrite Hloop, Hrange. reflexivity.
Qed.

Lemma raw_summary_counts_by_source_witness :
  @_summarize_raw_data Demo.python
    [[("source", VStr "forum")]; [("source", VStr "forum")];
     [("source", VStr "retail")]; []] =
  Ok (VDict [("total_items", VInt 4);
             ("sources", VDict [("forum", VInt 2); ("retail", VInt 1);
                                ("unknown", VInt 1)]);
             ("date_range", VDict [("earliest", VStr "N/A");
                                   ("latest", VStr "N/A")])]).
Proof.
  destruct (@raw_summary_counts_by_source Demo.python
              [[("source", VStr "forum")]; [("source", VStr "forum")];
               [("source", VStr "retail")]; []] eq_refl)
    as (sources & Hloop & _ & _ & Hsummary).
  injection Hloop as <-.
  exact (Hsummary _ eq_refl).
Defined.

(** *** Values the defaults of the merge do not cover *)

Lemma first_field_scalar (v : value) (key : string) :
  is_scalar v = true ->
  first_field v key = Ok (VStr "N/A") \/ first_field v key = Raise TypeError.
Proof.
  unfold first_field.
  destruct v; try discriminate; intros _; destruct (truthy _); auto.
Qed.

Lemma len_scalar (v : value) : is_scalar v = true -> len v = Raise TypeError.
Proof. destruct v; try discriminate; reflexivity. Qed.

(** The default [[]] stands in for a missing key only.  When one of the
    three sequences the summary reads is present as [None], a boolean or
    a number, [_generate_summary] raises, and with it the merge, whatever
    the other arguments are. *)
Theorem merge_raises_on_scalar_sequence `{rt : Runtime} (now : string)
  (analysis ad_framework : dict) (raw_data : option (list dict))
  (metadata : option dict) (key : string) :
  In key summarised_keys ->
  is_scalar (dict_get analysis key (VList [])) = true ->
  exists e,
    _generate_summary analysis = Raise e /\
    generate_message_map now analysis ad_framework raw_data metadata = Raise e.
Proof.
  intros Hkey Hscalar.
  assert (exists e, _generate_summary analysis = Raise e) as [e He].
  { unfold _generate_summary.
    destruct Hkey as [<- | [<- | [<- | []]]];
      pose proof (len_scalar _ Hscalar) as Hlen;
      destruct (first_field_scalar _ "pain_point" Hscalar) as [Hp | Hp];
      destruct (first_field_scalar _ "emotion" Hscalar) as [Hm | Hm];
      destruct (first_field_scalar _ "desire" Hscalar) as [Hd | Hd];
      rewrite ?Hp, ?Hm, ?Hd; cbn [bind];
      repeat match goal with
             | |- exists e, bind ?c _ = Raise e =>
                 first [ rewrite Hlen; cbn [bind]
                       | destruct c; cbn [bind] ]
             end;
      eexists; reflexivity. }
  exists e. split; [assumption|].
  unfold generate_message_map. now rewrite He.
Qed.

Lemma merge_raises_on_scalar_sequence_witness :
  @generate_message_map Demo.python "2024-05-01T09:00:00"
    [("pain_points", VNone); ("key_insights", VList [VStr "fit matters"])]
    [] None None = Raise TypeError.
Proof.
  destruct (@merge_raises_on_scalar_sequence Demo.python "2024-05-01T09:00:00"
              [("pain_points", VNone); ("key_insights", VList [VStr "fit matters"])]
              [] None None "pain_points")
    as (e & Hsummary & Hmerge).
  - simpl. now left.
  - reflexivity.
  - rewrite Hmerge. rewrite <- Hsummary. reflexivity.
Defined.

(** *** Results of a pass that went wrong *)

Lemma dict_get_missing (d : dict) (k : string) (default : value) :
  lookup k d = None -> dict_get d k default = default.
Proof. unfold dict_get. now intros ->. Qed.

Ltac in_list := simpl; repeat (first [left; reflexivity | right]).

Lemma merge_without_keys `{rt : Runtime} (now : string)
  (analysis ad_framework : dict) (raw_data : option (list dict))
  (metadata : option dict) :
  (forall k, In k analysis_keys -> lookup k analysis = None) ->
  (forall k, In k framework_keys -> lookup k ad_framework = None) ->
  generate_message_map now analysis ad_framework raw_data metadata =
  generate_message_map now [] [] raw_data metadata.
Proof.
  intros Ha Hf. unfold generate_message_map, _generate_summary.
  rewrite !(dict_get_missing analysis) by (apply Ha; in_list).
  rewrite !(dict_get_missing ad_framework) by (apply Hf; in_list).
  reflexivity.
Qed.

(** The merge reads eleven keys and nothing else.  Results that hold
    none of them, as the wrappers [{raw_analysis: text}],
    [{raw_framework: text}] and [{error: message}] of a pass that went
    wrong, give the report of two empty results: what the wrapper holds
    is in no field of the report.  Both renderers accept that report. *)
Theorem merge_drops_wrapped_results `{rt : Runtime} (now : string)
  (analysis ad_framework : dict) (raw_data : option (list dict))
  (metadata : option dict) :
  (forall k, In k analysis_keys -> lookup k analysis = None) ->
  (forall k, In k framework_keys -> lookup k ad_framework = None) ->
  generate_message_map now analysis ad_framework raw_data metadata =
  generate_message_map now [] [] raw_data metadata /\
  forall message_map,
    generate_message_map now analysis ad_framework raw_data metadata =
    Ok (VDict message_map) ->
    (exists md, _generate_markdown message_map = Ok md) /\
    (exists html, _generate_html message_map = Ok html).
Proof.
  intros Ha Hf.
  pose proof (merge_without_keys now analysis ad_framework raw_data metadata
                Ha Hf) as Hsame.
  split; [assumption|].
  intros message_map. rewrite Hsame. clear Hsame Ha Hf.
  unfold generate_message_map. cbn [_generate_summary dict_get lookup first_field
    truthy len length bind Z.of_nat].
  destruct (match raw_data with Some (_ :: _ as l) => _summarize_raw_data l
                           | _ => Ok VNone end) as [summary|e];
    cbn [bind]; [|discriminate].
  intros Hmap. apply (f_equal (fun r => match r with
                                        | Ok (VDict d) => d
                                        | _ => []
                                        end)) in Hmap.
  subst message_map. split.
  - destruct (_generate_markdown _) as [md|e] eqn:Hmd; [now exists md|].
    vm_compute in Hmd. discriminate.
  - destruct (_generate_html _) as [html|e] eqn:Hhtml; [now exists html|].
    vm_compute in Hhtml. discriminate.
Qed.

Lemma merge_drops_wrapped_results_witness :
  @generate_message_map Demo.python "2024-05-01T09:00:00"
    [("raw_analysis", VStr "I cannot answer in JSON.")]
    [("error", VStr "rate limited")] None None =
  @generate_message_map Demo.python "2024-05-01T09:00:00" [] [] None None.
Proof.
  apply (@merge_drops_wrapped_results Demo.python "2024-05-01T09:00:00"
           [("raw_analysis", VStr "I cannot answer in JSON.")]
           [("error", VStr "rate limited")] None None).
  - intros k Hk. simpl in Hk.
    repeat (destruct Hk as [<- | Hk]; [reflexivity|]). destruct Hk.
  - intros k Hk. simpl in Hk.
    repeat (destruct Hk as [<- | Hk]; [reflexivity|]). destruct Hk.
Defined.

Lemma summary_is_dict (analysis : dict) (summary : value) :
  _generate_summary analysis = Ok summary -> exists d, summary = VDict d.
Proof.
  unfold _generate_summary.
  repeat match goal with
         | |- bind ?c _ = _ -> _ => destruct c; cbn [bind]; [|discriminate]
         end.
  intros [= <-]. eauto.
Qed.

Lemma scalar_insights_stop_renderers `{rt : Runtime} (message_map d : dict) :
  dict_get message_map "executive_summary" (VDict []) = VDict d ->
  is_scalar (dict_get message_map "key_insights" (VList [])) = true ->
  _generate_markdown message_map = Raise TypeError /\
  _generate_html message_map = Raise TypeError.
Proof.
  intros Hsummary Hscalar.
  assert (iter (dict_get message_map "key_insights" (VList [])) = Raise TypeError)
    as Hiter.
  { destruct (dict_get message_map "key_insights" (VList []));
      try discriminate; reflexivity. }
  unfold _generate_markdown, markdown_lines, _generate_html, html_frags.
  rewrite Hsummary, Hiter. split; reflexivity.
Qed.

(** The default [[]] of [key_insights] stands in for a missing key only.
    An analysis whose [key_insights] is [None], a boolean or a number
    passes the merge unchanged, and then neither renderer produces a
    document: both raise [TypeError] when they reach the insights. *)
Theorem renderers_raise_on_scalar_insights `{rt : Runtime} (now : string)
  (analysis ad_framework : dict) (raw_data : option (list dict))
  (metadata : option dict) (message_map : dict) :
  is_scalar (dict_get analysis "key_insights" (VList [])) = true ->
  generate_message_map now analysis ad_framework raw_data metadata =
  Ok (VDict message_map) ->
  _generate_markdown message_map = Raise TypeError /\
  _generate_html message_map = Raise TypeError.
Proof.
  intros Hscalar. unfold generate_message_map.
  destruct (_generate_summary analysis) as [summary|e] eqn:Hsummary;
    cbn [bind]; [|discriminate].
  destruct (summary_is_dict _ _ Hsummary) as [d ->].
  destruct (match raw_data with Some (_ :: _ as l) => _summarize_raw_data l
                           | _ => Ok VNone end) as [raw|e];
    cbn [bind]; [|discriminate].
  intros Hmap. apply (f_equal (fun r => match r with
                                        | Ok (VDict d) => d
                                        | _ => []
                                        end)) in Hmap.
  subst message_map.
  apply (scalar_insights_stop_renderers _ d); [reflexivity|exact Hscalar].
Qed.

Lemma renderers_raise_on_scalar_insights_witness :
  exists message_map,
    @generate_message_map Demo.python "2024-05-01T09:00:00"
      [("key_insights", VNone)] [] None None = Ok (VDict message_map) /\
    @_generate_markdown Demo.python message_map = Raise TypeError /\
    @_generate_html Demo.python message_map = Raise TypeError.
Proof.
  eexists. split; [reflexivity|].
  apply (@renderers_raise_on_scalar_insights Demo.python "2024-05-01T09:00:00"
           [("key_insights", VNone)] [] None None); reflexivity.
Defined.

(** *** The shape of the report *)

(** Whenever the merge returns, the report has the same fifteen keys in
    the same order; [generated_at] is the time of the call, the summary
    is what [_generate_summary] made, and eleven fields are the fields
    of the two results under the names of the report, each with its
    empty default when the result lacks it. *)
Theorem merge_copies_fields `{rt : Runtime} (now : string)
  (analysis ad_framework : dict) (raw_data : option (list dict))
  (metadata : option dict) (message_map : dict) :
  generate_message_map now analysis ad_framework raw_data metadata =
  Ok (VDict message_map) ->
  map fst message_map = report_keys /\
  lookup "generated_at" message_map = Some (VStr now) /\
  _generate_summary analysis =
  Ok (dict_get message_map "executive_summary" VNone) /\
  (forall field key default, In (field, key, default) analysis_fields ->
     lookup field message_map = Some (dict_get analysis key default)) /\
  (forall field key default, In (field, key, default) framework_fields ->
     lookup field message_map = Some (dict_get ad_framework key default)).
Proof.
  unfold generate_message_map.
  destruct (_generate_summary analysis) as [summary|e]; cbn [bind];
    [|discriminate].
  destruct (match raw_data with Some (_ :: _ as l) => _summarize_raw_data l
                           | _ => Ok VNone end) as [raw|e];
    cbn [bind]; [|discriminate].
  intros Hmap. apply (f_equal (fun r => match r with
                                        | Ok (VDict d) => d
                                        | _ => []
                                        end)) in Hmap.
  subst message_map.
  split; [reflexivity|]. split; [reflexivity|]. split; [reflexivity|].
  split; intros field key default Hin; simpl in Hin;
    repeat (destruct Hin as [[= <- <- <-] | Hin]; [reflexivity|]);
    destruct Hin.
Qed.

Lemma merge_copies_fields_witness :
  exists message_map,
    @generate_message_map Demo.python "2024-05-01T09:00:00"
      [("emotional_patterns", VList [VDict [("emotion", VStr "hope")]])]
      [("hooks", VDict [("problem_aware", VList [VStr "Tired of blisters?"])])]
      None None = Ok (VDict message_map) /\
    map fst message_map = report_keys /\
    lookup "emotional_intelligence" message_map =
    Some (VList [VDict [("emotion", VStr "hope")]]).
Proof.
  eexists. split; [reflexivity|].
  destruct (@merge_copies_fields Demo.python "2024-05-01T09:00:00"
              [("emotional_patterns", VList [VDict [("emotion", VStr "hope")]])]
              [("hooks", VDict [("problem_aware", VList [VStr "Tired of blisters?"])])]
              None None _ eq_refl)
    as (Hkeys & _ & _ & Hanalysis & _).
  split; [exact Hkeys|].
  exact (Hanalysis "emotional_intelligence" "emotional_patterns" (VList [])
           (or_introl eq_refl)).
Defined.

(** *** Timestamps of two kinds *)

Lemma lt_of_kinds `{rt : Runtime} (a b : value) :
  is_text a || is_number a = true ->
  is_text b || is_number b = true ->
  if Bool.eqb (is_text a) (is_text b)
  then exists c, lt a b = Ok c
  else lt a b = Raise TypeError.
Proof.
  unfold lt, lt_with, is_number.
  destruct a; try discriminate; destruct b; try discriminate; simpl; eauto.
Qed.

(** The loop of [min] and of [max] over texts and numbers of which one
    is of the other kind than the running one. *)
Lemma extreme_of_two_kinds `{rt : Runtime} (flip : bool) (rest : list value) :
  forall m,
    (forall x, In x (m :: rest) -> is_text x || is_number x = true) ->
    (exists y, In y rest /\ is_text y <> is_text m) ->
    for_each rest
      (fun m x => c <- (if flip then gt x m else lt x m) ;;
                  Ok (if c then x else m)) m = Raise TypeError.
Proof.
  induction rest as [|x rest IH]; intros m Hkinds (y & Hy & Hmixed).
  - destruct Hy.
  - cbn [for_each].
    pose proof (Hkinds x (or_intror (or_introl eq_refl))) as Hx.
    pose proof (Hkinds m (or_introl eq_refl)) as Hm.
    pose proof (lt_of_kinds x m Hx Hm) as Hlt.
    pose proof (lt_of_kinds m x Hm Hx) as Hgt.
    replace (Bool.eqb (is_text m) (is_text x))
      with (Bool.eqb (is_text x) (is_text m)) in Hgt
      by (destruct (is_text x), (is_text m); reflexivity).
    destruct (Bool.eqb (is_text x) (is_text m)) eqn:Hsame.
    + apply Bool.eqb_prop in Hsame.
      assert (forall c : bool, is_text (if c then x else m) = is_text m) as Hnext.
      { now intros []. }
      assert (forall c : bool,
                 for_each rest
                   (fun m x => c <- (if flip then gt x m else lt x m) ;;
                               Ok (if c then x else m))
                   (if c then x else m) = Raise TypeError) as Hrest.
      { intros c. apply IH.
        - intros z [<- | Hz]; [now destruct c | apply Hkinds; right; now right].
        - exists y. rewrite Hnext. split; [|assumption].
          destruct Hy as [Hy | Hy]; [|assumption].
          subst y. contradiction. }
      destruct Hlt as [c Hc]. destruct Hgt as [c' Hc'].
      unfold gt. destruct flip; rewrite ?Hc, ?Hc'; cbn [bind]; apply Hrest.
    + unfold gt. destruct flip; rewrite ?Hlt, ?Hgt; reflexivity.
Qed.

(** The timestamps are compared as they are.  When the records carry
    texts and numbers, and at least one of each, [min] raises
    [TypeError]; then there is no date range and no summary of the raw
    data. *)
Theorem date_range_raises_on_two_kinds `{rt : Runtime} (raw_data : list dict) :
  (forall d, In d (collect_dates raw_data) ->
     is_text d || is_number d = true) ->
  (exists d, In d (collect_dates raw_data) /\ is_text d = true) ->
  (exists d, In d (collect_dates raw_data) /\ is_number d = true) ->
  _get_date_range raw_data = Raise TypeError /\
  exists e, _summarize_raw_data raw_data = Raise e.
Proof.
  intros Hkinds (t & Ht & Htext) (n & Hn & Hnumber).
  assert (is_text n = false) as Hn'.
  { destruct n; try discriminate; reflexivity. }
  assert (_get_date_range raw_data = Raise TypeError) as Hrange.
  { unfold _get_date_range.
    destruct (collect_dates raw_data) as [|first rest]; [destruct Ht|].
    assert (py_min first rest = Raise TypeError) as ->; [|reflexivity].
    apply (extreme_of_two_kinds false rest first Hkinds).
    destruct (is_text first) eqn:Hfirst.
    - exists n. rewrite Hn'. split; [|discriminate].
      destruct Hn as [<- | Hn]; [congruence | assumption].
    - exists t. rewrite Htext. split; [|discriminate].
      destruct Ht as [<- | Ht]; [congruence | assumption]. }
  split; [assumption|].
  unfold _summarize_raw_data.
  destruct (for_each raw_data count_source []) as [sources|e]; cbn [bind].
  - rewrite Hrange. now exists TypeError.
  - now exists e.
Qed.

Lemma date_range_raises_on_two_kinds_witness :
  @_get_date_range Demo.python
    [[("created_utc", VStr "2024-05-01T09:00:00")];
     [("created_utc", VInt 1714554000)]] = Raise TypeError.
Proof.
  apply (@date_range_raises_on_two_kinds Demo.python
           [[("created_utc", VStr "2024-05-01T09:00:00")];
            [("created_utc", VInt 1714554000)]]).
  - intros d [<- | [<- | []]]; reflexivity.
  - exists (VStr "2024-05-01T09:00:00"). split; [now left | reflexivity].
  - exists (VInt 1714554000). split; [right; now left | reflexivity].
Defined.

End AssemblyMore.

(** ** More on the two document encodings *)

Module RenderingMore.
Import Py Runtime MessageMap Spec Shapes.

Ltac step H x :=
  match type of H with
  | bind ?c _ = Ok _ =>
      destruct c as [x|] eqn:?; cbn [bind] in H; [|discriminate H]
  end.

(** *** Where the insights go *)

Lemma emit_each {A} (line : A -> string) (xs : list A) (md : list string) :
  emit xs (fun x => Ok [line x]) md = Ok (md +++ map line xs).
Proof.
  unfold emit. revert md. induction xs as [|x xs IH]; intros md; simpl.
  - now rewrite app_nil_r.
  - rewrite IH, <- app_assoc. reflexivity.
Qed.

Lemma emit_grows {A} (xs : list A) (body : A -> result (list string))
  (md md' : list string) :
  emit xs body md = Ok md' -> exists ls, md' = md +++ ls.
Proof.
  unfold emit. revert md. induction xs as [|x xs IH]; intros md; simpl.
  - intros [= <-]. exists []. now rewrite app_nil_r.
  - destruct (body x) as [ls|]; cbn [bind]; [|discriminate].
    intros H. destruct (IH _ H) as [ls' ->].
    exists (ls +++ ls'). now rewrite app_assoc.
Qed.

Lemma extend_each {A} (piece : A -> list frag) (xs : list A) (html : list frag) :
  extend xs (fun x => Ok (piece x)) html = Ok (html +++ flat_map piece xs).
Proof.
  unfold extend. revert html. induction xs as [|x xs IH]; intros html; simpl.
  - now rewrite app_nil_r.
  - rewrite IH, <- app_assoc. reflexivity.
Qed.

Lemma extend_grows {A} (xs : list A) (body : A -> result (list frag))
  (html html' : list frag) :
  extend xs body html = Ok html' -> exists fs, html' = html +++ fs.
Proof.
  unfold extend. revert html. induction xs as [|x xs IH]; intros html; simpl.
  - intros [= <-]. exists []. now rewrite app_nil_r.
  - destruct (body x) as [fs|]; cbn [bind]; [|discriminate].
    intros H. destruct (IH _ H) as [fs' ->].
    exists (fs +++ fs'). now rewrite app_assoc.
Qed.

(** In the prose encoding the insights are the entries of [md] between
    the header of their section, which is the ninth entry, and the
    header of the pain points: one bullet [- str(insight)] for each
    element that iterating over [key_insights] yields, in that order. *)
Theorem prose_lists_insights `{rt : Runtime} (message_map : dict)
  (md : list string) (insights : list value) :
  markdown_lines message_map = Ok md ->
  iter (dict_get message_map "key_insights" (VList [])) = Ok insights ->
  exists head rest,
    length head = 8%nat /\
    md = head +++ ["## Key Insights" ++ nl]
         +++ map (fun insight => "- " ++ str insight) insights
         +++ [""; "## Pain Points" ++ nl] +++ rest.
Proof.
  unfold markdown_lines. intros H Hiter.
  step H top. step H dominant. step H primary. step H total.
  rewrite Hiter in H. cbn [bind] in H. rewrite emit_each in H. cbn [bind] in H.
  step H pains. step H md1. step H emotions. step H md2. step H md3.
  step H hooks. step H md4. step H frameworks. step H md5. step H ctas.
  step H md6. step H objections.
  repeat match goal with
         | E : emit _ _ _ = Ok ?m |- _ =>
             apply emit_grows in E; destruct E as [? ->]
         end.
  eexists [_; _; _; _; _; _; _; _], _. split; [reflexivity|].
  rewrite <- !app_assoc. cbn [app]. reflexivity.
Qed.

Lemma prose_lists_insights_witness :
  exists md head rest,
    @markdown_lines Demo.python Demo.report = Ok md /\
    md = head +++ ["## Key Insights" ++ nl; "- fit matters more than price";
                   ""; "## Pain Points" ++ nl] +++ rest.
Proof.
  destruct (@prose_lists_insights Demo.python Demo.report _
              [VStr "fit matters more than price"] eq_refl eq_refl)
    as (head & rest & _ & Hmd).
  eexists _, head, rest. split; [reflexivity|]. exact Hmd.
Defined.

(** In the styled encoding each insight is one list item that holds
    [str(insight)] as it is, between the fixed text of the page and the
    head of the pain points. *)
Theorem styled_lists_insights `{rt : Runtime} (message_map : dict)
  (html : list frag) (insights : list value) :
  html_frags message_map = Ok html ->
  iter (dict_get message_map "key_insights" (VList [])) = Ok insights ->
  exists head rest,
    length head = 14%nat /\
    html = head +++ [Lit html_page_7]
           +++ flat_map (fun insight => [Lit html_insight_0; Val (str insight);
                                         Lit html_insight_1]) insights
           +++ [Lit html_pain_points_0] +++ rest.
Proof.
  unfold html_frags. intros H Hiter.
  step H top. step H dominant. step H primary. step H emotions. step H pains.
  step H desires.
  rewrite Hiter in H. cbn [bind] in H.
  rewrite (extend_each (fun insight => [Lit html_insight_0; Val (str insight);
                                        Lit html_insight_1])) in H.
  cbn [bind] in H.
  step H pain_points. step H html1. step H hooks. step H html2.
  step H frameworks. step H html3.
  injection H as <-.
  repeat match goal with
         | E : extend _ _ _ = Ok ?m |- _ =>
             apply extend_grows in E; destruct E as [? ->]
         end.
  eexists [_; _; _; _; _; _; _; _; _; _; _; _; _; _], _. split; [reflexivity|].
  rewrite <- !app_assoc. cbn [app]. reflexivity.
Qed.

Lemma styled_lists_insights_witness :
  exists html head rest,
    @html_frags Demo.python Demo.report = Ok html /\
    html = head +++ [Lit html_page_7; Lit html_insight_0;
                     Val "fit matters more than price"; Lit html_insight_1;
                     Lit html_pain_points_0] +++ rest.
Proof.
  destruct (@styled_lists_insights Demo.python Demo.report _
              [VStr "fit matters more than price"] eq_refl eq_refl)
    as (head & rest & _ & Hhtml).
  eexists _, head, rest. split; [reflexivity|]. exact Hhtml.
Defined.

(** *** What the documents do not show *)

Ltac in_list := simpl; repeat (first [left; reflexivity | right]).

Lemma dict_get_same (a b : dict) (k : string) (default : value) :
  lookup k a = lookup k b -> dict_get a k default = dict_get b k default.
Proof. unfold dict_get. now intros ->. Qed.

(** The prose document is a function of ten fields of the report: two
    reports that agree on them give the same document, or the same
    exception.  The desire triggers, the language patterns, the headline
    formulas, the metadata and the summary of the raw data are in the
    report and not in the document. *)
Theorem prose_reads_ten_fields `{rt : Runtime} (a b : dict) :
  (forall k, In k prose_keys -> lookup k a = lookup k b) ->
  _generate_markdown a = _generate_markdown b.
Proof.
  intros Hsame. unfold _generate_markdown, markdown_lines.
  rewrite !(dict_get_same a b) by (apply Hsame; in_list).
  reflexivity.
Qed.

Lemma prose_reads_ten_fields_witness :
  @_generate_markdown Demo.python
    (dict_set Demo.report "desire_triggers"
       (VList [VDict [("desire", VStr "run a marathon")]])) =
  @_generate_markdown Demo.python Demo.report.
Proof.
  apply (@prose_reads_ten_fields Demo.python).
  intros k Hk. simpl in Hk.
  repeat (destruct Hk as [<- | Hk]; [reflexivity|]). destruct Hk.
Defined.

(** The styled document is a function of six fields: besides what the
    prose document leaves out, it shows nothing of the emotional
    patterns, the awareness stages, the calls to action and the
    objection handlers. *)
Theorem styled_reads_six_fields `{rt : Runtime} (a b : dict) :
  (forall k, In k styled_keys -> lookup k a = lookup k b) ->
  _generate_html a = _generate_html b.
Proof.
  intros Hsame. unfold _generate_html, html_frags.
  rewrite !(dict_get_same a b) by (apply Hsame; in_list).
  reflexivity.
Qed.

Lemma styled_reads_six_fields_witness :
  @_generate_html Demo.python
    (dict_set Demo.report "objection_handlers" (VList [])) =
  @_generate_html Demo.python Demo.report.
Proof.
  apply (@styled_reads_six_fields Demo.python).
  intros k Hk. simpl in Hk.
  repeat (destruct Hk as [<- | Hk]; [reflexivity|]). destruct Hk.
Defined.

(** *** A pain point without severity *)

(** The two encodings do not agree on a pain point that has no
    [severity]: the prose document says [N/A], the styled document says
    [medium], as the class of the badge and as its text. *)
Theorem severity_defaults_differ `{rt : Runtime} (i : Z) (pain : dict)
  (quotes : list value) :
  lookup "severity" pain = None ->
  iter (dict_get pain "customer_quotes" (VList [])) = Ok quotes ->
  exists md fs,
    md_pain i (VDict pain) = Ok md /\
    nth_error md 1 = Some ("**Severity:** " ++ str (VStr "N/A")) /\
    html_pain (VDict pain) = Ok fs /\
    nth_error fs 3 = Some (Val (str (VStr "medium"))) /\
    nth_error fs 5 = Some (Val (str (VStr "medium"))).
Proof.
  intros Hseverity Hquotes.
  unfold md_pain, quote_lines, html_pain, get. cbn [bind].
  rewrite !(AssemblyMore.dict_get_missing pain "severity") by assumption.
  rewrite Hquotes. cbn [bind].
  eexists _, _. repeat (split; [reflexivity|]). reflexivity.
Qed.

Lemma severity_defaults_differ_witness :
  exists md fs,
    @md_pain Demo.python 1 (VDict [("pain_point", VStr "blisters")]) = Ok md /\
    nth_error md 1 = Some "**Severity:** N/A" /\
    @html_pain Demo.python (VDict [("pain_point", VStr "blisters")]) = Ok fs /\
    nth_error fs 3 = Some (Val "medium").
Proof.
  destruct (@severity_defaults_differ Demo.python 1%Z
              [("pain_point", VStr "blisters")] [] eq_refl eq_refl)
    as (md & fs & Hmd & Hline & Hfs & Hbadge & _).
  exists md, fs. repeat split; assumption.
Defined.

End RenderingMore.

(** ** More on the corpus builder *)

Module CorpusMore.
Import Py Main Shapes.

Lemma append_field_from (key : string) (item : dict) (acc texts : list value) :
  append_field key item (acc +++ texts) = acc +++ append_field key item texts.
Proof.
  unfold append_field. destruct (lookup key item) as [v|]; [|reflexivity].
  destruct (truthy v); [now rewrite app_assoc | reflexivity].
Qed.

Lemma append_entry_from (acc texts : list value) (c : value) :
  append_entry (acc +++ texts) c = acc +++ append_entry texts c.
Proof.
  unfold append_entry. destruct c; try reflexivity.
  destruct (lookup "text" d); [now rewrite app_assoc | reflexivity].
Qed.

Lemma append_entries_from (entries : list value) (acc texts : list value) :
  for_each entries (fun texts c => Ok (append_entry texts c)) (acc +++ texts) =
  (r <- for_each entries (fun texts c => Ok (append_entry texts c)) texts ;;
   Ok (acc +++ r)).
Proof.
  revert texts. induction entries as [|c entries IH]; intros texts; simpl.
  - reflexivity.
  - now rewrite append_entry_from, IH.
Qed.

Lemma append_nested_from (key : string) (item : dict) (acc texts : list value) :
  append_nested key item (acc +++ texts) =
  (r <- append_nested key item texts ;; Ok (acc +++ r)).
Proof.
  unfold append_nested. destruct (lookup key item) as [entries|]; [|reflexivity].
  destruct (iter entries) as [l|e]; cbn [bind]; [|reflexivity].
  apply append_entries_from.
Qed.

(** One round of the loop of [analyze_data]. *)
Lemma round_from (item : dict) (acc texts : list value) :
  (let texts := append_field "text" item (acc +++ texts) in
   let texts := append_field "title" item texts in
   texts <- append_nested "comments" item texts ;;
   append_nested "replies" item texts) =
  (r <- (let texts := append_field "text" item texts in
         let texts := append_field "title" item texts in
         texts <- append_nested "comments" item texts ;;
         append_nested "replies" item texts) ;;
   Ok (acc +++ r)).
Proof.
  cbv zeta. rewrite !append_field_from, append_nested_from.
  destruct (append_nested "comments" item _) as [t|e]; cbn [bind]; [|reflexivity].
  apply append_nested_from.
Qed.

Lemma rounds_from (data : list dict) (acc texts : list value) :
  for_each data
    (fun texts item =>
       let texts := append_field "text" item texts in
       let texts := append_field "title" item texts in
       texts <- append_nested "comments" item texts ;;
       append_nested "replies" item texts) (acc +++ texts) =
  (r <- for_each data
          (fun texts item =>
             let texts := append_field "text" item texts in
             let texts := append_field "title" item texts in
             texts <- append_nested "comments" item texts ;;
             append_nested "replies" item texts) texts ;;
   Ok (acc +++ r)).
Proof.
  revert texts. induction data as [|item data IH]; intros texts.
  - reflexivity.
  - cbn [for_each]. rewrite round_from.
    match goal with
    | |- context [bind (bind ?c _) _] => destruct c as [t|e]; cbn [bind]
    end; [apply IH | reflexivity].
Qed.

Lemma corpus_app (a b : list dict) :
  analyze_data_texts (a +++ b) =
  (ta <- analyze_data_texts a ;;
   tb <- analyze_data_texts b ;;
   Ok (ta +++ tb)).
Proof.
  unfold analyze_data_texts.
  assert (forall acc,
    for_each (a +++ b)
      (fun texts item =>
         let texts := append_field "text" item texts in
         let texts := append_field "title" item texts in
         texts <- append_nested "comments" item texts ;;
         append_nested "replies" item texts) acc =
    (ta <- for_each a
             (fun texts item =>
                let texts := append_field "text" item texts in
                let texts := append_field "title" item texts in
                texts <- append_nested "comments" item texts ;;
                append_nested "replies" item texts) acc ;;
     for_each b
       (fun texts item =>
          let texts := append_field "text" item texts in
          let texts := append_field "title" item texts in
          texts <- append_nested "comments" item texts ;;
          append_nested "replies" item texts) ta)) as Hsplit.
  { induction a as [|item a IH]; intros acc; [reflexivity|].
    cbn [app for_each].
    match goal with
    | |- bind ?c _ = _ => destruct c as [t|e]; cbn [bind]
    end; [apply IH | reflexivity]. }
  rewrite Hsplit.
  match goal with
  | |- bind ?c _ = _ => destruct c as [ta|e]; cbn [bind]
  end; [|reflexivity].
  rewrite <- (app_nil_r ta) at 1. apply rounds_from.
Qed.

(** The records are read one by one and none changes what another
    gives: the corpus of two batches, one after the other, is the corpus
    of the first followed by the corpus of the second, and it raises what
    the first of them to raise does. *)
Theorem corpus_of_batches (a b : list dict) :
  analyze_data_texts (a +++ b) =
  (ta <- analyze_data_texts a ;;
   tb <- analyze_data_texts b ;;
   Ok (ta +++ tb)).
Proof. exact (corpus_app a b). Qed.

Lemma append_nested_raises (key : string) (item : dict) (texts : list value)
  (e : exn) :
  append_nested key item texts = Raise e -> e = TypeError.
Proof.
  unfold append_nested. destruct (lookup key item) as [entries|]; [|discriminate].
  destruct entries; cbn [iter bind]; try (now intros [= <-]).
  - induction (map VStr (code_points s)) as [|c l IH] in texts |- *; simpl;
      [discriminate | apply IH].
  - induction l as [|c l IH] in texts |- *; simpl; [discriminate | apply IH].
  - induction (map (fun kv => VStr (fst kv)) d) as [|c l IH] in texts |- *;
      simpl; [discriminate | apply IH].
Qed.

(** A record whose [comments] or [replies] is present and is [None], a
    boolean or a number stops the whole corpus: the loop raises
    [TypeError], whatever the records before it gave and whatever comes
    after it. *)
Theorem corpus_raises_on_scalar_nested (before after : list dict)
  (item : dict) (key : string) (v : value) (texts : list value) :
  analyze_data_texts before = Ok texts ->
  key = "comments" \/ key = "replies" ->
  lookup key item = Some v ->
  is_scalar v = true ->
  analyze_data_texts (before +++ item :: after) = Raise TypeError.
Proof.
  intros Hbefore Hkey Hlookup Hscalar.
  rewrite corpus_app, Hbefore. cbn [bind].
  change (item :: after) with ([item] +++ after).
  rewrite corpus_app.
  assert (analyze_data_texts [item] = Raise TypeError) as ->; [|reflexivity].
  unfold analyze_data_texts. cbn [for_each].
  assert (forall t, append_nested key item t = Raise TypeError) as Hnested.
  { intros t. unfold append_nested. rewrite Hlookup.
    destruct v; try discriminate; reflexivity. }
  destruct Hkey as [-> | ->].
  - rewrite Hnested. reflexivity.
  - destruct (append_nested "comments" item _) as [t|e] eqn:Hcomments;
      cbn [bind].
    + rewrite Hnested. reflexivity.
    + now rewrite (append_nested_raises _ _ _ _ Hcomments).
Qed.

Lemma corpus_raises_on_scalar_nested_witness :
  analyze_data_texts
    [[("text", VStr "great shoes")];
     [("text", VStr "too narrow"); ("comments", VNone)];
     [("text", VStr "love them")]] = Raise TypeError.
Proof.
  apply (corpus_raises_on_scalar_nested
           [[("text", VStr "great shoes")]] [[("text", VStr "love them")]]
           [("text", VStr "too narrow"); ("comments", VNone)]
           "comments" VNone [VStr "great shoes"]).
  - reflexivity.
  - now left.
  - reflexivity.
  - reflexivity.
Defined.

End CorpusMore.

(** ** The run *)

Module PipelineProps.
Import Py Runtime Analyzer MessageMap Main Spec Shapes Pipeline.

Lemma strings_of_texts (l : list value) :
  forallb is_text l = true -> strings l = Ok (texts_of l).
Proof.
  induction l as [|v l IH]; [reflexivity|].
  destruct v; try discriminate. simpl. intros H. now rewrite (IH H).
Qed.

Lemma strings_raise (l : list value) :
  forallb is_text l = false -> strings l = Raise TypeError.
Proof.
  induction l as [|v l IH]; [discriminate|].
  destruct v; try reflexivity. simpl. intros H. now rewrite (IH H).
Qed.

(** When the first hundred units of the corpus are texts,
    [analyze_data] returns a pair and has sent two requests: the
    analysis request for these units, then the framework request for
    what the first pass returned, whatever that is, also the
    [{error: ...}] of a call that failed. *)
Theorem analyze_data_sends_two_requests `{rt : Runtime} (self : ClaudeAnalyzer)
  (data : list dict) (max_tokens : Z) (context : string) (w : world)
  (texts : list value) :
  analyze_data_texts data = Ok texts ->
  forallb is_text (firstn 100 texts) = true ->
  let sample := texts_of (firstn 100 texts) in
  exists analysis ad_framework,
    fst (analyze_data self data max_tokens context w) =
    Ok (analysis, ad_framework) /\
    fst (analyze_batch self sample context max_tokens w) = Ok analysis /\
    calls (snd (analyze_data self data max_tokens context w)) =
    calls w +++ [analysis_request self sample context max_tokens;
                 framework_request self analysis 3000].
Proof.
  intros Hcorpus Htexts sample. unfold analyze_data.
  rewrite Hcorpus. cbn [bind]. rewrite (strings_of_texts _ Htexts). fold sample.
  destruct (Passes.analyze_batch_returns self sample context max_tokens w)
    as [analysis Hanalysis].
  pose proof (Passes.analyze_batch_calls self sample context max_tokens w)
    as Hcalls.
  destruct (analyze_batch self sample context max_tokens w) as [r w1].
  simpl in Hanalysis, Hcalls. subst r.
  destruct (Passes.generate_ad_copy_framework_returns self analysis 3000 w1)
    as [ad_framework Hframework].
  pose proof (Passes.generate_ad_copy_framework_calls self analysis 3000 w1)
    as Hcalls'.
  destruct (generate_ad_copy_framework self analysis 3000 w1) as [r w2].
  simpl in Hframework, Hcalls'. subst r.
  exists analysis, ad_framework. cbn [bind fst snd].
  split; [reflexivity|]. split; [reflexivity|].
  rewrite Hcalls', Hcalls, <- app_assoc. reflexivity.
Qed.

Lemma analyze_data_sends_two_requests_witness :
  let self := Demo.answering (Raise (LibraryError "APIError" "overloaded")) in
  let data := [[("title", VStr "Too narrow"); ("text", VStr "my heels bleed")]] in
  map req_max_tokens
    (calls (snd (@analyze_data Demo.python self data 4000 "" Demo.fresh)))
  = [4000; 3000]%Z.
Proof.
  intros self data.
  destruct (@analyze_data_sends_two_requests Demo.python self data 4000%Z ""
              Demo.fresh [VStr "my heels bleed"; VStr "Too narrow"]
              eq_refl eq_refl)
    as (analysis & ad_framework & _ & _ & Hcalls).
  rewrite Hcalls. reflexivity.
Defined.

(** The passes catch what happens inside their [try]; the prompt is
    built before it.  When one of the first hundred units of the corpus
    is not a text, as the [text] of a comment that is [None],
    [analyze_data] raises [TypeError] and no request is sent. *)
Theorem analyze_data_stops_on_non_text `{rt : Runtime} (self : ClaudeAnalyzer)
  (data : list dict) (max_tokens : Z) (context : string) (w : world)
  (texts : list value) :
  analyze_data_texts data = Ok texts ->
  forallb is_text (firstn 100 texts) = false ->
  analyze_data self data max_tokens context w = (Raise TypeError, w).
Proof.
  intros Hcorpus Htexts. unfold analyze_data.
  rewrite Hcorpus. cbn [bind]. now rewrite (strings_raise _ Htexts).
Qed.

Lemma analyze_data_stops_on_non_text_witness :
  @analyze_data Demo.python (Demo.says "{}")
    [[("text", VStr "great shoes"); ("comments", VList [VDict [("text", VNone)]])]]
    4000 "" Demo.fresh
  = (Raise TypeError, Demo.fresh).
Proof.
  apply (@analyze_data_stops_on_non_text Demo.python (Demo.says "{}")
           [[("text", VStr "great shoes");
             ("comments", VList [VDict [("text", VNone)]])]]
           4000%Z "" Demo.fresh [VStr "great shoes"; VNone]); reflexivity.
Defined.

(** The first pass returns any JSON value the model answers with; the
    merge needs an object.  When the answer decodes to a list, a text,
    a number or [null], both requests are sent and then the merge
    raises [AttributeError]: the run ends without a report. *)
Theorem run_raises_on_json_that_is_no_object `{rt : Runtime}
  (self : ClaudeAnalyzer) (now : string) (data : list dict) (max_tokens : Z)
  (context : string) (include_raw_data : bool) (metadata : dict) (w : world)
  (texts : list value) (m : message) (t : string) (v : value) :
  data <> [] ->
  analyze_data_texts data = Ok texts ->
  forallb is_text (firstn 100 texts) = true ->
  let req :=
    analysis_request self (texts_of (firstn 100 texts)) context max_tokens in
  client self (calls w) req = Ok m ->
  first_text m = Ok t ->
  json_loads t = Ok v ->
  is_dict v = false ->
  fst (main_message_map self now data max_tokens context include_raw_data
         metadata w) = Raise AttributeError /\
  calls (snd (main_message_map self now data max_tokens context
                include_raw_data metadata w)) =
  calls w +++ [req; framework_request self v 3000].
Proof.
  intros Hdata Hcorpus Htexts req Hm Ht Hv Hdict.
  unfold main_message_map.
  destruct data as [|item data']; [contradiction|].
  set (data := item :: data') in *. unfold analyze_data.
  rewrite Hcorpus. cbn [bind]. rewrite (strings_of_texts _ Htexts).
  rewrite Passes.analyze_batch_unfold. cbv zeta. fold req.
  rewrite Hm. cbn [bind]. rewrite Ht. cbn [bind].
  unfold loads_or_wrap. rewrite Hv.
  destruct (Passes.generate_ad_copy_framework_returns self v 3000 (sent req w))
    as [ad_framework Hframework].
  pose proof (Passes.generate_ad_copy_framework_calls self v 3000 (sent req w))
    as Hcalls.
  destruct (generate_ad_copy_framework self v 3000 (sent req w)) as [r w2].
  simpl in Hframework, Hcalls. subst r. cbn [bind fst snd]. split.
  - unfold message_map_of. destruct v; try reflexivity. discriminate.
  - rewrite Hcalls. simpl. now rewrite <- app_assoc.
Qed.

Lemma run_raises_on_json_that_is_no_object_witness :
  fst (@main_message_map Demo.python (Demo.says "[]") "2024-05-01T09:00:00"
         [[("text", VStr "great shoes")]] 4000 "" false
         (metadata_of "running shoes" "" false true false) Demo.fresh)
  = Raise AttributeError.
Proof.
  apply (@run_raises_on_json_that_is_no_object Demo.python (Demo.says "[]")
           "2024-05-01T09:00:00" [[("text", VStr "great shoes")]] 4000%Z ""
           false (metadata_of "running shoes" "" false true false) Demo.fresh
           [VStr "great shoes"] {| msg_content := [TextBlock "[]"] |} "[]"
           (VList [])); try reflexivity.
  discriminate.
Defined.

(** When the model answers neither request in JSON, the two passes
    return their wrappers and the run still gives a report: it is the
    report of two empty results.  The answers are kept by the passes and
    dropped by the merge. *)
Theorem run_drops_answers_that_are_no_json `{rt : Runtime}
  (self : ClaudeAnalyzer) (now : string) (data : list dict) (max_tokens : Z)
  (context : string) (include_raw_data : bool) (metadata : dict) (w : world)
  (texts : list value) (m1 m2 : message) (t1 t2 : string) :
  data <> [] ->
  analyze_data_texts data = Ok texts ->
  forallb is_text (firstn 100 texts) = true ->
  let req :=
    analysis_request self (texts_of (firstn 100 texts)) context max_tokens in
  let analysis := VDict [("raw_analysis", VStr t1)] in
  client self (calls w) req = Ok m1 ->
  first_text m1 = Ok t1 ->
  json_loads t1 = Raise JSONDecodeError ->
  client self (calls w +++ [req]) (framework_request self analysis 3000) = Ok m2 ->
  first_text m2 = Ok t2 ->
  json_loads t2 = Raise JSONDecodeError ->
  fst (analyze_data self data max_tokens context w) =
  Ok (analysis, VDict [("raw_framework", VStr t2)]) /\
  fst (main_message_map self now data max_tokens context include_raw_data
         metadata w) =
  generate_message_map now [] []
    (if include_raw_data then Some data else None) (Some metadata).
Proof.
  intros Hdata Hcorpus Htexts req analysis Hm1 Ht1 Hv1 Hm2 Ht2 Hv2.
  assert (fst (analyze_data self data max_tokens context w) =
          Ok (analysis, VDict [("raw_framework", VStr t2)])) as Hpair.
  { unfold analyze_data.
    rewrite Hcorpus. cbn [bind]. rewrite (strings_of_texts _ Htexts).
    rewrite Passes.analyze_batch_unfold. cbv zeta. fold req.
    rewrite Hm1. cbn [bind]. rewrite Ht1. cbn [bind].
    unfold loads_or_wrap. rewrite Hv1. fold analysis.
    rewrite Passes.generate_ad_copy_framework_unfold. cbv zeta.
    change (calls (sent req w)) with (calls w +++ [req]).
    rewrite Hm2. cbn [bind]. rewrite Ht2. cbn [bind].
    unfold loads_or_wrap. rewrite Hv2. reflexivity. }
  split; [assumption|].
  unfold main_message_map.
  destruct data as [|item data']; [contradiction|].
  set (data := item :: data') in *.
  destruct (analyze_data self data max_tokens context w) as [r w1].
  simpl in Hpair. subst r. cbn [fst].
  unfold message_map_of, analysis.
  apply AssemblyMore.merge_without_keys; intros k Hk; simpl in Hk;
    repeat (destruct Hk as [<- | Hk]; [reflexivity|]); destruct Hk.
Qed.

Lemma run_drops_answers_that_are_no_json_witness :
  fst (@main_message_map Demo.python (Demo.says "Sorry, I cannot help.")
         "2024-05-01T09:00:00" [[("text", VStr "great shoes")]] 4000 "" false
         (metadata_of "running shoes" "" false true false) Demo.fresh)
  = @generate_message_map Demo.python "2024-05-01T09:00:00" [] [] None
      (Some (metadata_of "running shoes" "" false true false)).
Proof.
  apply (@run_drops_answers_that_are_no_json Demo.python
           (Demo.says "Sorry, I cannot help.")
           "2024-05-01T09:00:00" [[("text", VStr "great shoes")]] 4000%Z ""
           false (metadata_of "running shoes" "" false true false) Demo.fresh
           [VStr "great shoes"]
           {| msg_content := [TextBlock "Sorry, I cannot help."] |}
           {| msg_content := [TextBlock "Sorry, I cannot help."] |}
           "Sorry, I cannot help." "Sorry, I cannot help."); try reflexivity.
  discriminate.
Defined.

(** [--format] accepts four values.  For [json], [markdown] and [html]
    [generate_output] calls the saver of that format and no other,
    whatever the configuration says; for [all] it calls none, since the
    test is [name in output_format] and no name occurs in ["all"]. *)
Theorem format_choice_selects_savers (choice : string) (config_format : value) :
  In choice format_choices ->
  selected_formats (VStr choice) config_format =
  Ok (if choice =? "all" then [] else [choice]).
Proof.
  intros Hchoice. simpl in Hchoice.
  repeat (destruct Hchoice as [<- | Hchoice]; [reflexivity|]).
  destruct Hchoice.
Qed.

Lemma format_choice_selects_savers_witness :
  selected_formats (VStr "all") (VStr "markdown") = Ok [].
Proof.
  apply (format_choice_selects_savers "all" (VStr "markdown")).
  simpl. tauto.
Defined.

End PipelineProps.
